(** * A requests based API client: [RequestClient] and the [endpoint] decorator

    Shallow embedding of [package/request.py].

    - Python values are an inductive type [PyVal]; dictionaries with string
      keys ([**kwargs], the query parameters, [map_kwargs]) are finite maps.
    - A Python string is held as its UTF-8 encoding, one byte per
      character of a Rocq [string]; where Python looks at a code point that
      need not be ASCII (a digit of a field name, the conversion character
      of a replacement field), the bytes are decoded.
    - Exceptions are values of [Exn]; a computation that may raise returns a
      [result].
    - Stateful code runs in the monad [M]: the state holds the object store
      with the [endpoint] descriptors (they are shared, mutable Python
      objects) and the trace of the calls that leave this module (the
      request handed to [requests.Session.request], the invocation of the
      wrapped client method).
    - What lives outside [request.py] and cannot be written down once and for
      all (the network behind [Session.request], the protocol methods of
      arbitrary objects) is collected in the record [Externals], over which
      every definition and theorem is parametric. *)

From Stdlib Require Import ZArith Ascii String DecimalString.
From stdpp Require Import gmap strings list fin_maps.

Local Open Scope Z_scope.

(** ** Strings *)

Module Str.

(** [s.startswith(c)] for a one-character [c]. *)
Definition starts_with_char (c : ascii) (s : string) : bool :=
  match s with
  | String a _ => bool_decide (a = c)
  | EmptyString => false
  end.

(** [s.endswith(c)] for a one-character [c]. *)
Fixpoint ends_with_char (c : ascii) (s : string) : bool :=
  match s with
  | EmptyString => false
  | String a EmptyString => bool_decide (a = c)
  | String _ s' => ends_with_char c s'
  end.

(** [not s] : the string is empty. *)
Definition is_empty (s : string) : bool :=
  match s with
  | EmptyString => true
  | String _ _ => false
  end.

(** [c in s] for a one-character [c]. *)
Fixpoint contains_char (c : ascii) (s : string) : bool :=
  match s with
  | EmptyString => false
  | String a s' => bool_decide (a = c) || contains_char c s'
  end.

(** [str(z)] for an integer. *)
Definition of_Z (z : Z) : string := NilZero.string_of_int (Z.to_int z).

End Str.

(** ** Code points of a UTF-8 encoded string *)
Module Utf8.

(** U+FFFD stands for bytes that are no UTF-8; the encoding of a Python
    string has none. *)
Definition replacement : N := 65533.

(** The number of bytes that follow the first byte of a code point. *)
Definition continuation_count (b : N) : nat :=
  if (b <? 192)%N then 0
  else if (b <? 224)%N then 1
  else if (b <? 240)%N then 2
  else if (b <? 248)%N then 3
  else 0.

(** The bits of the code point in its first byte. *)
Definition lead_bits (b : N) : N :=
  if (b <? 128)%N then b
  else if (b <? 192)%N then replacement
  else if (b <? 224)%N then (b - 192)%N
  else if (b <? 240)%N then (b - 224)%N
  else if (b <? 248)%N then (b - 240)%N
  else replacement.

(** The code points of [s]; [pending] holds the bits read of a code point
    that still needs [more] bytes. *)
Fixpoint decode_from (pending : N) (more : nat) (s : string) : list N :=
  match s with
  | EmptyString =>
      match more with
      | O => []
      | S _ => [replacement]
      end
  | String c s' =>
      let b := N_of_ascii c in
      match more with
      | O =>
          match continuation_count b with
          | O => lead_bits b :: decode_from 0 0 s'
          | S k => decode_from (lead_bits b) (S k) s'
          end
      | S k =>
          if (128 <=? b)%N && (b <? 192)%N then
            match k with
            | O => (pending * 64 + (b - 128))%N :: decode_from 0 0 s'
            | S _ => decode_from (pending * 64 + (b - 128))%N k s'
            end
          else replacement :: decode_from 0 0 s'
      end
  end.

Definition decode (s : string) : list N := decode_from 0 0 s.

End Utf8.

(** ** Responses, clients, values, exceptions *)

(** The part of a [requests.Response] this module looks at. *)
Record Response := mk_Response {
  status_code : Z;
  text : string
}.

(** A [RequestClient] (sub)class instance: [server] is the class attribute
    the child class configures. *)
Record Client := mk_Client {
  server : string
}.

#[warnings="-register-all"]
Inductive PyVal :=
| PyNone
| PyInt (z : Z)
| PyStr (s : string)
| PyDict (d : gmap string PyVal)
| PyObj (id : nat)                (* any other object, known by its identity *)
| PyClient (c : Client)
| PyResponse (r : Response).

Inductive Exn :=
| IndexError                      (* str.format: replacement index out of range *)
| KeyError (key : string)
| ValueError (msg : string)
| TypeError (msg : string)
| HTTPError (response : Response) (* requests.HTTPError, carries the response *)
| StopIteration                   (* StopIteration or a subclass of it *)
| RuntimeError (msg : string)
| Raised (id : nat).              (* any other exception of code outside this module *)

Inductive result (A : Type) :=
| Ok (a : A)
| Err (e : Exn).
Arguments Ok {A} a.
Arguments Err {A} e.

Definition is_Ok {A} (r : result A) : Prop := ∃ a, r = Ok a.

#[global] Instance result_ret : MRet result := @Ok.
#[global] Instance result_bind : MBind result := λ A B f r,
  match r with
  | Ok a => f a
  | Err e => Err e
  end.

#[global] Instance result_fmap : FMap result := λ A B f r,
  match r with
  | Ok a => Ok (f a)
  | Err e => Err e
  end.

(** ** The calls that leave the module *)

(** [Session.request(method, url, *args, **kwargs)] as the base class
    receives it. *)
Record SessionCall := mk_SessionCall {
  sc_method : string;
  sc_url : string;
  sc_args : list PyVal;
  sc_kwargs : gmap string PyVal
}.

Inductive Event :=
| EvRequest (c : SessionCall)     (* super().request(...) was called *)
| EvFunc (args : list PyVal).     (* the wrapped client method was called *)

(** A converter passed to the [endpoint] constructor, [Callable[..., str]]. *)
Definition Converter : Type := PyVal → result PyVal.

(** A client method as the decorator receives it: called with a tuple of
    positional arguments. *)
Definition PyFunc : Type := list PyVal → result PyVal.

(** Code and objects outside [request.py]. *)
Record Externals := mk_Externals {
  (** [requests.Session.request]: the answer of the network to a call; it
      may depend on the calls made before. *)
  session_send : list Event → SessionCall → result Response;
  (** [format(v, spec)] where the cases below do not decide it. *)
  ext_format : PyVal → string → result string;
  (** [str(v)], [repr(v)], [ascii(v)] of an object. *)
  ext_str : PyVal → result string;
  ext_repr : PyVal → result string;
  ext_ascii : PyVal → result string;
  (** attribute and item access [v.a[i]...] of a replacement field. *)
  ext_access : PyVal → string → result PyVal
}.

(** ** [from os.path import join as urljoin]

    [posixpath.join(a, b)] for two components:
<<
    path = a
    if b.startswith(sep):               path = b
    elif not path or path.endswith(sep): path += b
    else:                                path += sep + b
>> *)
Definition sep : ascii := "/"%char.

Definition urljoin (a b : string) : string :=
  if Str.starts_with_char sep b then b
  else if Str.is_empty a || Str.ends_with_char sep a then a +:+ b
  else a +:+ String sep b.

(** ** [requests.Response.raise_for_status]

    Raises [HTTPError] for a 4xx client error or a 5xx server error status
    and returns [None] otherwise. *)
Definition raise_for_status (r : Response) : result unit :=
  if bool_decide (400 ≤ status_code r < 600) then Err (HTTPError r) else Ok tt.

(** ** [str.format] with positional arguments

    The path template is filled in by Python's [str.format], called with
    positional arguments only.  The model follows CPython's
    [unicode_format.h]: a scanner ([MarkupIterator_next], [parse_field])
    cuts the template into literal characters and replacement fields
    [{field_name!conversion:format_spec}], and the fields are rendered from
    left to right ([output_markup]).  Scanning does not depend on the
    arguments, so the scanner runs first and leaves a syntax error in the
    list of pieces at the place where the lazy scanner would raise it. *)
Module Format.

(** The first part of a field name ([field_name_split], [get_integer]):
    no name, a decimal index into the positional arguments, a keyword, or
    a numeral too long for an index. *)
Inductive ArgName :=
| AutoArg
| IndexArg (n : nat)
| KeyArg (k : string)
| OverflowArg.

Record Field := mk_Field {
  f_name : string;              (* the field name as written *)
  f_conv : option string;       (* the character after '!', in UTF-8 *)
  f_spec : string               (* the text after ':' *)
}.

Inductive Piece :=
| Chr (c : ascii)               (* one character of literal text *)
| Fld (f : Field)
| Bad (e : Exn).                (* the scanner raises here *)

(** *** The scanner *)

Inductive Scan :=
| SLit                          (* in literal text *)
| SOpen                         (* read '{' in literal text *)
| SClose                        (* read '}' in literal text *)
| SName (name : string) (in_bracket : bool)
| SConv (name : string)         (* read '!' *)
| SConvMore (name : string) (conv : string) (more : nat)
                                (* inside the conversion character *)
| SConvEnd (name : string) (conv : string)
| SSpec (name : string) (conv : option string) (spec : string) (count : nat).

Definition snoc (s : string) (c : ascii) : string := s +:+ String c EmptyString.

(** One character of [parse_field] while it reads the field name. *)
Definition step_name (name : string) (in_bracket : bool) (c : ascii)
  : list Piece * option Scan :=
  if in_bracket then
    ([], Some (SName (snoc name c) (negb (bool_decide (c = "]"%char)))))
  else if bool_decide (c = "{"%char) then
    ([Bad (ValueError "unexpected '{' in field name")], None)
  else if bool_decide (c = "["%char) then ([], Some (SName (snoc name c) true))
  else if bool_decide (c = "}"%char) then
    ([Fld (mk_Field name None EmptyString)], Some SLit)
  else if bool_decide (c = ":"%char) then ([], Some (SSpec name None EmptyString 1))
  else if bool_decide (c = "!"%char) then ([], Some (SConv name))
  else ([], Some (SName (snoc name c) false)).

(** One character of input: the pieces that are complete now, and the next
    state ([None] after an error). *)
Definition step (st : Scan) (c : ascii) : list Piece * option Scan :=
  match st with
  | SLit =>
      if bool_decide (c = "{"%char) then ([], Some SOpen)
      else if bool_decide (c = "}"%char) then ([], Some SClose)
      else ([Chr c], Some SLit)
  | SOpen =>
      if bool_decide (c = "{"%char) then ([Chr "{"%char], Some SLit)
      else step_name EmptyString false c
  | SClose =>
      if bool_decide (c = "}"%char) then ([Chr "}"%char], Some SLit)
      else ([Bad (ValueError "Single '}' encountered in format string")], None)
  | SName name in_bracket => step_name name in_bracket c
  | SConv name =>
      match Utf8.continuation_count (N_of_ascii c) with
      | O => ([], Some (SConvEnd name (String c EmptyString)))
      | S k => ([], Some (SConvMore name (String c EmptyString) (S k)))
      end
  | SConvMore name conv more =>
      match more with
      | 1%nat | 0%nat => ([], Some (SConvEnd name (snoc conv c)))
      | S k => ([], Some (SConvMore name (snoc conv c) k))
      end
  | SConvEnd name conv =>
      if bool_decide (c = "}"%char) then
        ([Fld (mk_Field name (Some conv) EmptyString)], Some SLit)
      else if bool_decide (c = ":"%char) then
        ([], Some (SSpec name (Some conv) EmptyString 1))
      else ([Bad (ValueError "expected ':' after conversion specifier")], None)
  | SSpec name conv spec count =>
      if bool_decide (c = "{"%char) then
        ([], Some (SSpec name conv (snoc spec c) (S count)))
      else if bool_decide (c = "}"%char) then
        match count with
        | 1%nat | 0%nat => ([Fld (mk_Field name conv spec)], Some SLit)
        | S n => ([], Some (SSpec name conv (snoc spec c) n))
        end
      else ([], Some (SSpec name conv (snoc spec c) count))
  end.

(** The end of the template. *)
Definition at_end (st : Scan) : list Piece :=
  match st with
  | SLit => []
  | SOpen => [Bad (ValueError "Single '{' encountered in format string")]
  | SClose => [Bad (ValueError "Single '}' encountered in format string")]
  | SName _ _ => [Bad (ValueError "expected '}' before end of string")]
  | SConv _ =>
      [Bad (ValueError "end of string while looking for conversion specifier")]
  | SConvMore _ _ _ | SConvEnd _ _ | SSpec _ _ _ _ =>
      [Bad (ValueError "unmatched '{' in format spec")]
  end.

Fixpoint scan (st : Scan) (s : string) : list Piece :=
  match s with
  | EmptyString => at_end st
  | String c s' =>
      match step st c with
      | (ps, Some st') => ps ++ scan st' s'
      | (ps, None) => ps
      end
  end.

Definition markup (template : string) : list Piece := scan SLit template.

(** *** Field names *)

(** The code points of the digit zero of every decimal digit system
    (general category Nd) of Unicode 14.0, the database of CPython 3.11;
    the digits one to nine follow each of them. *)
Definition decimal_zeros : list N :=
  [ 0x30; 0x660; 0x6f0; 0x7c0; 0x966; 0x9e6; 0xa66; 0xae6; 0xb66; 0xbe6;
    0xc66; 0xce6; 0xd66; 0xde6; 0xe50; 0xed0; 0xf20; 0x1040; 0x1090; 0x17e0;
    0x1810; 0x1946; 0x19d0; 0x1a80; 0x1a90; 0x1b50; 0x1bb0; 0x1c40; 0x1c50;
    0xa620; 0xa8d0; 0xa900; 0xa9d0; 0xa9f0; 0xaa50; 0xabf0; 0xff10; 0x104a0;
    0x10d30; 0x11066; 0x110f0; 0x11136; 0x111d0; 0x112f0; 0x11450; 0x114d0;
    0x11650; 0x116c0; 0x11730; 0x118e0; 0x11950; 0x11c50; 0x11d50; 0x11da0;
    0x16a60; 0x16ac0; 0x16b50; 0x1d7ce; 0x1d7d8; 0x1d7e2; 0x1d7ec; 0x1d7f6;
    0x1e140; 0x1e2f0; 0x1e950; 0x1fbf0 ]%N.

(** [Py_UNICODE_TODECIMAL]: the value of a code point that is a decimal
    digit. *)
Definition digit_value (cp : N) : option N :=
  (λ zero, cp - zero)%N
    <$> List.find (λ zero, (zero <=? cp)%N && (cp <? zero + 10)%N) decimal_zeros.

(** The largest index, [sys.maxsize] of a 64-bit build. *)
Definition PY_SSIZE_T_MAX : N := 9223372036854775807.

Inductive Integer :=
| NotInteger                    (* some character is no decimal digit *)
| TooManyDigits                 (* the value exceeds PY_SSIZE_T_MAX *)
| IsInteger (n : N).

(** [get_integer]: the value of a string of decimal digits, given by its
    code points; the digits are read from the left, and the overflow is
    detected before it happens. *)
Fixpoint get_integer (accumulator : N) (s : list N) : Integer :=
  match s with
  | [] => IsInteger accumulator
  | c :: s' =>
      match digit_value c with
      | None => NotInteger
      | Some digitval =>
          if ((PY_SSIZE_T_MAX - digitval) / 10 <? accumulator)%N
          then TooManyDigits
          else get_integer (accumulator * 10 + digitval)%N s'
      end
  end.

(** [field_name_split]: the name up to the first '.' or '[', and the
    accessors that follow it. *)
Fixpoint split_name (s : string) : string * string :=
  match s with
  | EmptyString => (EmptyString, EmptyString)
  | String c s' =>
      if bool_decide (c = "."%char) || bool_decide (c = "["%char)
      then (EmptyString, s)
      else let '(first, rest) := split_name s' in (String c first, rest)
  end.

Definition arg_name (first : string) : ArgName :=
  if Str.is_empty first then AutoArg
  else match get_integer 0 (Utf8.decode first) with
       | IsInteger n => IndexArg (N.to_nat n)
       | NotInteger => KeyArg first
       | TooManyDigits => OverflowArg
       end.

Definition field_arg (f : Field) : ArgName := arg_name (split_name (f_name f)).1.
Definition field_rest (f : Field) : string := (split_name (f_name f)).2.

(** *** Automatic numbering *)

Inductive AutoNumberState := ANS_INIT | ANS_AUTO | ANS_MANUAL.

Record AutoNumber := mk_AutoNumber {
  an_state : AutoNumberState;
  an_field_number : nat
}.

Definition auto_number_init : AutoNumber := mk_AutoNumber ANS_INIT 0.

(** The checks of [field_name_split] and the index they yield: [None] for
    a keyword.  The numeral is read first, then the numbering state is
    checked. *)
Definition resolve (a : ArgName) (an : AutoNumber)
  : result (option nat * AutoNumber) :=
  match a with
  | OverflowArg => Err (ValueError "Too many decimal digits in format string")
  | KeyArg _ => Ok (None, an)
  | AutoArg =>
      match an_state an with
      | ANS_MANUAL =>
          Err (ValueError "cannot switch from manual field specification to automatic field numbering")
      | _ => Ok (Some (an_field_number an),
                 mk_AutoNumber ANS_AUTO (S (an_field_number an)))
      end
  | IndexArg n =>
      match an_state an with
      | ANS_AUTO =>
          Err (ValueError "cannot switch from automatic field numbering to manual field specification")
      | _ => Ok (Some n, mk_AutoNumber ANS_MANUAL (an_field_number an))
      end
  end.

(** *** Rendering *)

Section Render.
Context (env : Externals).

(** [str(v)] *)
Definition py_str (v : PyVal) : result string :=
  match v with
  | PyStr s => Ok s
  | PyInt z => Ok (Str.of_Z z)
  | PyNone => Ok "None"%string
  | _ => ext_str env v
  end.

(** [format(v, spec)]: a [str] under the empty spec or [s] is the string
    itself, an [int] under the empty spec or [d] its decimal numeral. *)
Definition py_format (v : PyVal) (spec : string) : result string :=
  match v with
  | PyStr s =>
      if bool_decide (spec = EmptyString) || bool_decide (spec = "s"%string)
      then Ok s else ext_format env v spec
  | PyInt z =>
      if bool_decide (spec = EmptyString) || bool_decide (spec = "d"%string)
      then Ok (Str.of_Z z) else ext_format env v spec
  | _ => ext_format env v spec
  end.

(** [do_conversion]; the message of CPython writes a character that is not
    printable ASCII as an escape. *)
Definition do_conversion (c : string) (v : PyVal) : result PyVal :=
  if bool_decide (c = "r"%string) then PyStr <$> ext_repr env v
  else if bool_decide (c = "s"%string) then PyStr <$> py_str v
  else if bool_decide (c = "a"%string) then PyStr <$> ext_ascii env v
  else Err (ValueError ("Unknown conversion specifier " +:+ c)).

(** [get_field_object]: the positional argument the field names (there
    are no keyword arguments), then its accessors. *)
Definition get_field_object (f : Field) (args : list PyVal) (an : AutoNumber)
  : result (PyVal * AutoNumber) :=
  '(index, an) ← resolve (field_arg f) an;
  obj ← match index with
        | None => Err (KeyError (split_name (f_name f)).1)
        | Some i =>
            match args !! i with
            | Some v => Ok v
            | None => Err IndexError
            end
        end;
  obj ← (if Str.is_empty (field_rest f) then Ok obj
         else ext_access env obj (field_rest f));
  Ok (obj, an).

(** [output_markup]: look the object up, convert it, expand the format
    spec when it has replacement fields of its own, and format. *)
Definition output_markup
    (expand : string → list PyVal → AutoNumber → result (string * AutoNumber))
    (f : Field) (args : list PyVal) (an : AutoNumber)
  : result (string * AutoNumber) :=
  '(obj, an) ← get_field_object f args an;
  obj ← match f_conv f with
        | Some c =>
            if bool_decide (c = String zero EmptyString) then Ok obj
            else do_conversion c obj
        | None => Ok obj
        end;
  '(spec, an) ← (if Str.contains_char "{"%char (f_spec f)
                 then expand (f_spec f) args an
                 else Ok (f_spec f, an));
  s ← py_format obj spec;
  Ok (s, an).

(** [do_markup]: the pieces from left to right. *)
Fixpoint do_markup
    (expand : string → list PyVal → AutoNumber → result (string * AutoNumber))
    (ps : list Piece) (args : list PyVal) (an : AutoNumber) (out : string)
  : result (string * AutoNumber) :=
  match ps with
  | [] => Ok (out, an)
  | Chr c :: ps' => do_markup expand ps' args an (snoc out c)
  | Fld f :: ps' =>
      '(s, an) ← output_markup expand f args an;
      do_markup expand ps' args an (out +:+ s)
  | Bad e :: _ => Err e
  end.

(** [build_string] *)
Fixpoint build_string (recursion_depth : nat) (input : string)
    (args : list PyVal) (an : AutoNumber) : result (string * AutoNumber) :=
  match recursion_depth with
  | O => Err (ValueError "Max string recursion exceeded")
  | S d => do_markup (build_string d) (markup input) args an EmptyString
  end.

(** [template.format( *args)] *)
Definition str_format (template : string) (args : list PyVal) : result string :=
  fst <$> build_string 2 template args auto_number_init.

End Render.

End Format.

(** ** The [endpoint] objects, the store and the monad *)

(** The attributes [endpoint.__init__] sets. *)
Record Endpoint := mk_Endpoint {
  method : string;
  path_template : string;
  map_args : list Converter;
  map_kwargs : gmap string Converter;
  func : option PyFunc
}.

(** A reference to an [endpoint] object. *)
Definition loc : Type := nat.

Record State := mk_State {
  heap : gmap loc Endpoint;       (* the endpoint objects *)
  trace : list Event              (* the outgoing calls so far, oldest first *)
}.

(** A computation that reads and writes the state and returns or raises.  An
    exception does not roll the state back. *)
Definition M (A : Type) : Type := State → result A * State.

#[global] Instance M_ret : MRet M := λ A a σ, (Ok a, σ).
#[global] Instance M_bind : MBind M := λ A B f m σ,
  match m σ with
  | (Ok a, σ') => f a σ'
  | (Err e, σ') => (Err e, σ')
  end.

Definition raise {A} (e : Exn) : M A := λ σ, (Err e, σ).

(** A computation that only returns or raises. *)
Definition lift {A} (r : result A) : M A := λ σ, (r, σ).

Definition log (ev : Event) : M unit :=
  λ σ, (Ok tt, mk_State (heap σ) (trace σ ++ [ev])).

(** Reading the attributes of the object at [self]. *)
Definition read (self : loc) : M Endpoint := λ σ,
  match heap σ !! self with
  | Some d => (Ok d, σ)
  | None => (Err (TypeError "not an endpoint object"), σ)
  end.

(** [self.func = f] *)
Definition set_func (self : loc) (f : PyFunc) : M unit := λ σ,
  match heap σ !! self with
  | Some d =>
      (Ok tt,
       mk_State (<[self := mk_Endpoint (method d) (path_template d) (map_args d)
                              (map_kwargs d) (Some f)]> (heap σ))
                (trace σ))
  | None => (Err (TypeError "not an endpoint object"), σ)
  end.


(** ** [class RequestClient(Session, Client)] *)
Module RequestClient.
Section WithExternals.
Context (env : Externals).

(** [super().request(method, url, *args, **kwargs)]: the call goes out,
    and the network answers or raises. *)
Definition session_request (method url : string) (args : list PyVal)
    (kwargs : gmap string PyVal) : M Response := λ σ,
  let c := mk_SessionCall method url args kwargs in
  (session_send env (trace σ) c,
   mk_State (heap σ) (trace σ ++ [EvRequest c])).

(**
<<
url = urljoin(self.server, path)
kwargs.update(timeout=kwargs.get('timeout', 30))
response = super().request(method, url, *args, **kwargs)
response.raise_for_status()
return response
>> *)
Definition request (self : Client) (method path : string)
    (args : list PyVal) (kwargs : gmap string PyVal) : M Response :=
  let url := urljoin (server self) path in
  let kwargs :=
    <["timeout"%string := default (PyInt 30) (kwargs !! "timeout"%string)]> kwargs in
  response ← session_request method url args kwargs;
  _ ← lift (raise_for_status response);
  mret response.

End WithExternals.
End RequestClient.

(** ** [class endpoint] *)
Module endpoint.

(** [__init__(self, method, path_template, *args, **kwargs)] *)
Definition __init__ (method path_template : string) (args : list Converter)
    (kwargs : gmap string Converter) : Endpoint :=
  {| method := method;
     path_template := path_template;
     map_args := args;
     map_kwargs := kwargs;
     func := None |}.






(** An exception on its way out of a generator: a [StopIteration] raised
    inside the generator leaves it as [RuntimeError] (PEP 479), any other
    exception as it is. *)
Definition raised_in_generator (e : Exn) : Exn :=
  match e with
  | StopIteration => RuntimeError "generator raised StopIteration"
  | _ => e
  end.

Definition in_generator {A} (r : result A) : result A :=
  match r with
  | Ok a => Ok a
  | Err e => Err (raised_in_generator e)
  end.

(** [(f(v) for f, v in zip(map_args, args))], unpacked by the call
    [format( *args)]: every converter runs, in order and inside the
    generator, before [format] does; [zip] stops at the shorter of the
    two. *)
Fixpoint convert_args (map_args : list Converter) (args : list PyVal)
  : result (list PyVal) :=
  match map_args, args with
  | f :: map_args', v :: args' =>
      c ← in_generator (f v);
      cs ← convert_args map_args' args';
      Ok (c :: cs)
  | _, _ => Ok []
  end.

(** The body of the loop of [_parse_args] over the items of a dictionary:
<<
  for k, v in kwargs.items():
      if k in self.map_kwargs: params[k] = self.map_kwargs[k](v)
      else:                    kwargs[k] = v
>> *)
Fixpoint parse_items (map_kwargs : gmap string Converter)
    (items : list (string * PyVal)) (params kwargs : gmap string PyVal)
  : result (gmap string PyVal * gmap string PyVal) :=
  match items with
  | [] => Ok (params, kwargs)
  | (k, v) :: items' =>
      match map_kwargs !! k with
      | Some f =>
          c ← f v;
          parse_items map_kwargs items' (<[k := c]> params) kwargs
      | None => parse_items map_kwargs items' params (<[k := v]> kwargs)
      end
  end.

Section WithExternals.
Context (env : Externals).

(**
<<
args = (f(v) for f, v in zip(self.map_args, args))
path = self.path_template.format( *args)
params = dict()
kwargs = dict()
for k, v in kwargs.items(): ...
return (path, params, kwargs)
>>
    The assignment [kwargs = dict()] rebinds the name of the parameter:
    the loop runs over the items of the new, empty dictionary. *)
Definition _parse_args (self : Endpoint) (args : list PyVal)
    (kwargs : gmap string PyVal)
  : result (string * gmap string PyVal * gmap string PyVal) :=
  args ← convert_args (map_args self) args;
  path ← Format.str_format env (path_template self) args;
  let params : gmap string PyVal := ∅ in
  let kwargs : gmap string PyVal := ∅ in
  '(params, kwargs) ← parse_items (map_kwargs self) (map_to_list kwargs)
                        params kwargs;
  Ok (path, params, kwargs).

(** The keyword arguments [request] receives from the call
    [client.request(self.method, path, params=params, **kwargs)]: a key of
    [kwargs] that names [params] or a parameter of [request] that is
    already bound is a [TypeError]. *)
Definition with_params (params : gmap string PyVal) (kwargs : gmap string PyVal)
  : result (gmap string PyVal) :=
  match kwargs !! "params"%string, kwargs !! "self"%string,
        kwargs !! "method"%string, kwargs !! "path"%string with
  | None, None, None, None => Ok (<["params"%string := PyDict params]> kwargs)
  | _, _, _, _ => Err (TypeError "got multiple values for argument")
  end.

(** [self.func(client, response)] *)
Definition call_func (f : option PyFunc) (args : list PyVal) : M PyVal :=
  match f with
  | Some f => _ ← log (EvFunc args); lift (f args)
  | None => raise (TypeError "'NoneType' object is not callable")
  end.

(**
<<
path, params, kwargs = self._parse_args( *args, **kwargs)
response = client.request(self.method, path, params=params, **kwargs)
return self.func(client, response)
>> *)
Definition execute (self : loc) (client : Client) (args : list PyVal)
    (kwargs : gmap string PyVal) : M PyVal :=
  d ← read self;
  '(path, params, kwargs) ← lift (_parse_args d args kwargs);
  kwargs ← lift (with_params params kwargs);
  response ← RequestClient.request env client (method d) path [] kwargs;
  d ← read self;
  call_func (func d) [PyClient client; PyResponse response].

(** [lambda *args, **kwargs: self.execute( *args, **kwargs)], called as a
    method of [client] with the positional arguments [args]: the client is
    the first positional argument of the call, so a keyword argument named
    after [self] or [client] is a [TypeError]. *)
Definition decorated (self : loc) (client : Client) (args : list PyVal)
    (kwargs : gmap string PyVal) : M PyVal :=
  match kwargs !! "self"%string, kwargs !! "client"%string with
  | None, None => execute self client args kwargs
  | _, _ => raise (TypeError "got multiple values for argument")
  end.

(** [__call__(self, func)]: stores [func] in the object and returns the
    decorated method. *)
Definition __call__ (self : loc) (f : PyFunc)
  : M (Client → list PyVal → gmap string PyVal → M PyVal) :=
  _ ← set_func self f;
  mret (decorated self).

End WithExternals.
End endpoint.

(** [posixpath.isabs(s)]: the path starts with the separator.  A path is
    relative when it is not absolute. *)
Definition isabs (s : string) : bool := Str.starts_with_char sep s.

(** What stands between the server and a relative path after [urljoin]:
    nothing when the server is empty or ends in the separator, else one
    separator. *)
Definition joint (a : string) : string :=
  if Str.is_empty a || Str.ends_with_char sep a then EmptyString
  else String sep EmptyString.

(** The call [request] hands to [Session.request]: the first three lines of
    its body. *)
Definition issued (self : Client) (method path : string) (args : list PyVal)
    (kwargs : gmap string PyVal) : SessionCall :=
  mk_SessionCall method (urljoin (server self) path) args
    (<["timeout"%string := default (PyInt 30) (kwargs !! "timeout"%string)]> kwargs).

(** The call that goes out for a path the template gave. *)
Definition endpoint_call (client : Client) (d : Endpoint) (path : string)
  : SessionCall :=
  issued client (method d) path [] {["params"%string := PyDict ∅]}.

(** ** Templates with positional slots

    The templates the decorator is written for: literal text and slots
    [{}], [{N}], [{:spec}], [{N:spec}], numbered either all automatically or
    all by hand. *)
Module Template.
Import Format.

(** A slot that names a positional argument and nothing more: no
    accessors, no conversion, no replacement field inside the spec. *)
Definition plain (f : Field) : bool :=
  Str.is_empty (field_rest f)
  && match f_conv f with None => true | Some _ => false end
  && negb (Str.contains_char "{"%char (f_spec f)).

Definition auto_piece (p : Piece) : bool :=
  match p with
  | Chr _ => true
  | Fld f => plain f && match field_arg f with AutoArg => true | _ => false end
  | Bad _ => false
  end.

Definition manual_piece (p : Piece) : bool :=
  match p with
  | Chr _ => true
  | Fld f => plain f && match field_arg f with IndexArg _ => true | _ => false end
  | Bad _ => false
  end.

Definition positional (ps : list Piece) : bool :=
  forallb auto_piece ps || forallb manual_piece ps.

(** The index each numbered slot of the template looks up, in the order of
    the slots; [next] is the index the next automatically numbered slot
    gets.  (Replacement fields inside a format spec are not counted.) *)
Fixpoint indices (ps : list Piece) (next : nat) : list nat :=
  match ps with
  | [] => []
  | Fld f :: ps' =>
      match field_arg f with
      | AutoArg => next :: indices ps' (S next)
      | IndexArg n => n :: indices ps' next
      | KeyArg _ | OverflowArg => indices ps' next
      end
  | _ :: ps' => indices ps' next
  end.

(** The number of positional arguments the slots ask for. *)
Definition slots (ps : list Piece) : nat :=
  foldr (λ i n, Nat.max (S i) n) 0%nat (indices ps 0).

(** [Filled env cs ps next out]: [out] is the text of [ps] with every slot
    replaced by its argument from [cs], formatted under the spec of the
    slot. *)
Inductive Filled (env : Externals) (cs : list PyVal)
  : list Piece → nat → string → Prop :=
| Filled_nil next : Filled env cs [] next EmptyString
| Filled_chr c ps next out :
    Filled env cs ps next out →
    Filled env cs (Chr c :: ps) next (String c out)
| Filled_auto f ps next v s out :
    field_arg f = AutoArg →
    cs !! next = Some v →
    py_format env v (f_spec f) = Ok s →
    Filled env cs ps (S next) out →
    Filled env cs (Fld f :: ps) next (s +:+ out)
| Filled_index f n ps next v s out :
    field_arg f = IndexArg n →
    cs !! n = Some v →
    py_format env v (f_spec f) = Ok s →
    Filled env cs ps next out →
    Filled env cs (Fld f :: ps) next (s +:+ out).

(** Every argument can be formatted under every spec of the template. *)
Definition formattable (env : Externals) (ps : list Piece) (cs : list PyVal)
  : Prop :=
  ∀ v f, v ∈ cs → Fld f ∈ ps → is_Ok (py_format env v (f_spec f)).

(** Every slot has the empty spec, as in [{}] and [{0}]. *)
Definition bare (ps : list Piece) : bool :=
  forallb (λ p, match p with
                | Fld f => Str.is_empty (f_spec f)
                | _ => true
                end) ps.

Definition is_str (v : PyVal) : bool :=
  match v with
  | PyStr _ => true
  | _ => false
  end.

(** Expanding a format spec never lowers the counter of the automatic
    numbering. *)
Definition counts_up
    (expand : string → list PyVal → AutoNumber → result (string * AutoNumber))
  : Prop :=
  ∀ spec args an s an',
    expand spec args an = Ok (s, an') →
    (an_field_number an ≤ an_field_number an')%nat.

(** The numbering state agrees with the way the slots are numbered. *)
Definition style (st : AutoNumberState) (ps : list Piece) : Prop :=
  match st with
  | ANS_INIT => forallb auto_piece ps = true ∨ forallb manual_piece ps = true
  | ANS_AUTO => forallb auto_piece ps = true
  | ANS_MANUAL => forallb manual_piece ps = true
  end.

End Template.

(** ** Standard URL joining, for comparison

    Reference resolution of RFC 3986, section 5.2 (what
    [urllib.parse.urljoin] computes), for a base of the form
    [scheme://authority/path] without query or fragment and a reference
    that is a path without dot segments: the empty reference gives the
    base, a reference that begins with '/' replaces the path of the base,
    and any other reference replaces the last segment of the path of the
    base. *)
Module UrlSpec.

(** The text before the slash number [n] (counted from 0) and the text from
    that slash on. *)
Fixpoint split_at_slash (n : nat) (s : string) : string * string :=
  match s with
  | EmptyString => (EmptyString, EmptyString)
  | String c s' =>
      if bool_decide (c = sep) then
        match n with
        | O => (EmptyString, s)
        | S n' => let '(a, b) := split_at_slash n' s' in (String c a, b)
        end
      else let '(a, b) := split_at_slash n s' in (String c a, b)
  end.

(** [scheme://authority] and the path: the path starts at the third slash. *)
Definition split_base (base : string) : string * string :=
  split_at_slash 2 base.

(** A path without the characters after its last slash. *)
Fixpoint up_to_last_slash (s : string) : string :=
  match s with
  | EmptyString => EmptyString
  | String c s' =>
      if Str.contains_char sep s' then String c (up_to_last_slash s')
      else if bool_decide (c = sep) then String c EmptyString
      else EmptyString
  end.

Definition standard_join (base ref : string) : string :=
  let '(origin, path) := split_base base in
  if Str.is_empty ref then base
  else if Str.starts_with_char sep ref then origin +:+ ref
  else if Str.is_empty path then origin +:+ String sep ref
  else origin +:+ up_to_last_slash path +:+ ref.

End UrlSpec.

(** ** A concrete client, for the examples *)
Module Scenario.

(** A network that gives the same answer to every call; the protocol methods
    of opaque objects raise. *)
Definition network (answer : result Response) : Externals :=
  {| session_send := λ _ _, answer;
     ext_format := λ _ _, Err (Raised 1);
     ext_str := λ _, Err (Raised 2);
     ext_repr := λ _, Err (Raised 3);
     ext_ascii := λ _, Err (Raised 4);
     ext_access := λ _ _, Err (Raised 5) |}.

Definition ok : Response := mk_Response 200 "[]".
Definition not_modified : Response := mk_Response 304 "".
Definition not_found : Response := mk_Response 404 "no such item".

(** [class MyClient(RequestClient): server = 'https://api.example/base/'] *)
Definition client : Client := mk_Client "https://api.example/base/".

Definition start : State := mk_State ∅ [].

(** The builtin [str] as a converter. *)
Definition builtin_str (env : Externals) : Converter :=
  λ v, PyStr <$> Format.py_str env v.

(** A client method [def search(self, response): return response.text]. *)
Definition return_text : PyFunc := λ args,
  match args with
  | [PyClient _; PyResponse r] => Ok (PyStr (text r))
  | _ => Err (TypeError "search() takes 2 positional arguments")
  end.

(** [@endpoint.get('search', q=str)], decorating [return_text], as the only
    object of the store. *)
Definition search_q (env : Externals) : Endpoint :=
  mk_Endpoint "GET" "search" [] {["q"%string := builtin_str env]} (Some return_text).

(** [@endpoint.get('items/{}?{}', str, str)], decorating [return_text]. *)
Definition items (env : Externals) : Endpoint :=
  mk_Endpoint "GET" "items/{}?{}" [builtin_str env; builtin_str env] ∅
    (Some return_text).

Definition store (d : Endpoint) : State := mk_State {[ 0%nat := d ]} [].

(** A client method [def other(self, response): return None]. *)
Definition return_none : PyFunc := λ _, Ok PyNone.

(** [endpoint.get('items/{}?{}', str, str)], not used as a decorator. *)
Definition undecorated (env : Externals) : Endpoint :=
  endpoint.__init__ "GET" "items/{}?{}" [builtin_str env; builtin_str env] ∅.

(** [@endpoint.get('users/{id}', str)]: a slot with a name. *)
Definition by_name (env : Externals) : Endpoint :=
  mk_Endpoint "GET" "users/{id}" [builtin_str env] ∅ (Some return_text).

(** [@endpoint.get('users/{}/posts/{}', str)]: two slots, one converter. *)
Definition one_converter (env : Externals) : Endpoint :=
  mk_Endpoint "GET" "users/{}/posts/{}" [builtin_str env] ∅ (Some return_text).

(** [@endpoint.get('users')]: a template without slots. *)
Definition users (env : Externals) : Endpoint :=
  mk_Endpoint "GET" "users" [] ∅ (Some return_text).

(** A converter that raises. *)
Definition refuse : Converter := λ _, Err (Raised 9).

(** [@endpoint.get('items/{}', refuse)] *)
Definition refusing (env : Externals) : Endpoint :=
  mk_Endpoint "GET" "items/{}" [refuse] ∅ (Some return_text).

(** A converter that raises [StopIteration], as [next] on an exhausted
    iterator does. *)
Definition exhausted : Converter := λ _, Err StopIteration.

(** [@endpoint.get('items/{}', exhausted)] *)
Definition exhausting (env : Externals) : Endpoint :=
  mk_Endpoint "GET" "items/{}" [exhausted] ∅ (Some return_text).

End Scenario.

(** * Properties *)

(** ** The monad *)

Lemma M_bind_run {A B} (m : M A) (f : A → M B) (σ : State) :
  (m ≫= f) σ = match m σ with
               | (Ok a, σ') => f a σ'
               | (Err e, σ') => (Err e, σ')
               end.
Proof. reflexivity. Qed.

(** ** [urljoin] *)

Lemma urljoin_absolute (a b : string) :
  isabs b = true → urljoin a b = b.
Proof. unfold urljoin, isabs. intros ->. reflexivity. Qed.

Lemma urljoin_relative (a b : string) :
  isabs b = false → urljoin a b = a +:+ joint a +:+ b.
Proof.
  unfold urljoin, isabs, joint. intros ->.
  destruct (Str.is_empty a || Str.ends_with_char sep a); reflexivity.
Qed.

Lemma prefix_app (a b : string) : String.prefix a (a +:+ b) = true.
Proof.
  induction a as [|c a IH]; simpl.
  - destruct b; reflexivity.
  - destruct (Ascii.ascii_dec c c); [exact IH | congruence].
Qed.

(** ** [RequestClient.request] *)

(** One run of [request]: exactly one call goes out; its answer decides the
    outcome. *)
Lemma request_run env self method path args kwargs σ :
  RequestClient.request env self method path args kwargs σ =
    (match session_send env (trace σ) (issued self method path args kwargs) with
     | Ok r => if bool_decide (400 ≤ status_code r < 600)
               then Err (HTTPError r) else Ok r
     | Err e => Err e
     end,
     mk_State (heap σ)
       (trace σ ++ [EvRequest (issued self method path args kwargs)])).
Proof.
  unfold RequestClient.request, issued. rewrite M_bind_run.
  unfold RequestClient.session_request.
  destruct (session_send env _ _) as [r|e]; [|reflexivity].
  rewrite M_bind_run. unfold lift, raise_for_status.
  destruct (bool_decide (400 ≤ status_code r < 600)); reflexivity.
Qed.

(** C5.  [request] passes the timeout 30 to [Session.request] when the caller
    gave no [timeout] keyword; when the caller gave one, whatever its value,
    the keyword arguments go out exactly as the caller gave them.  No other
    keyword argument is touched in either case. *)
Theorem request_timeout env self method path args kwargs σ :
  ∃ call,
    trace (RequestClient.request env self method path args kwargs σ).2
      = trace σ ++ [EvRequest call]
    ∧ (kwargs !! "timeout"%string = None →
       sc_kwargs call !! "timeout"%string = Some (PyInt 30))
    ∧ (∀ v, kwargs !! "timeout"%string = Some v →
       sc_kwargs call !! "timeout"%string = Some v ∧ sc_kwargs call = kwargs)
    ∧ (∀ k, k ≠ "timeout"%string → sc_kwargs call !! k = kwargs !! k).
Proof.
  exists (issued self method path args kwargs).
  rewrite request_run. cbn [snd trace issued sc_kwargs].
  split; [reflexivity|]. split; [|split].
  - intros ->. by rewrite lookup_insert_eq.
  - intros v Hv. rewrite Hv. cbn [default].
    split; [by rewrite lookup_insert_eq | by apply insert_id].
  - intros k Hk. by rewrite lookup_insert_ne.
Qed.

(** C10.  When the path begins with '/', the URL that [request] hands to
    [Session.request] is the path alone: the server is dropped. *)
Theorem request_absolute_path_drops_server env self method path args kwargs σ :
  isabs path = true →
  ∃ call,
    (RequestClient.request env self method path args kwargs σ).2
      = mk_State (heap σ) (trace σ ++ [EvRequest call])
    ∧ sc_url call = path.
Proof.
  intros Habs. exists (issued self method path args kwargs).
  rewrite request_run. split; [reflexivity|].
  cbn [issued sc_url]. by apply urljoin_absolute.
Qed.

Lemma request_absolute_path_drops_server_witness :
  isabs "/search" = true
  ∧ ∃ call,
      (RequestClient.request (Scenario.network (Ok Scenario.ok)) Scenario.client
         "GET" "/search" [] ∅ Scenario.start).2
        = mk_State ∅ ([] ++ [EvRequest call])
      ∧ sc_url call = "/search"%string.
Proof.
  split; [reflexivity|].
  apply (request_absolute_path_drops_server (Scenario.network (Ok Scenario.ok))
           Scenario.client "GET" "/search" [] ∅ Scenario.start).
  reflexivity.
Defined.

(** C3, as the code has it.  For a path that does not begin with '/',
    [request] hands to [Session.request] the given method and exactly the
    URL [urljoin(server, path)], the join of [os.path.join]: the server,
    then one '/' unless the server is empty or already ends in one, then the
    path.  The server is a prefix of that URL, so the scheme and host of the
    configured server are kept. *)
Theorem request_relative_path_joins_server env self method path args kwargs σ :
  isabs path = false →
  ∃ call,
    (RequestClient.request env self method path args kwargs σ).2
      = mk_State (heap σ) (trace σ ++ [EvRequest call])
    ∧ sc_method call = method
    ∧ sc_url call = urljoin (server self) path
    ∧ sc_url call = server self +:+ joint (server self) +:+ path
    ∧ String.prefix (server self) (sc_url call) = true.
Proof.
  intros Hrel. exists (issued self method path args kwargs).
  rewrite request_run. cbn [issued sc_url sc_method].
  rewrite (urljoin_relative _ _ Hrel).
  repeat split. apply prefix_app.
Qed.

Lemma request_relative_path_joins_server_witness :
  isabs "search?limit=5" = false
  ∧ ∃ call,
      (RequestClient.request (Scenario.network (Ok Scenario.ok)) Scenario.client
         "GET" "search?limit=5" [] ∅ Scenario.start).2
        = mk_State ∅ ([] ++ [EvRequest call])
      ∧ sc_method call = "GET"%string
      ∧ sc_url call = urljoin "https://api.example/base/" "search?limit=5"
      ∧ sc_url call = "https://api.example/base/search?limit=5"%string
      ∧ String.prefix "https://api.example/base/" (sc_url call) = true.
Proof.
  split; [reflexivity|].
  apply (request_relative_path_joins_server (Scenario.network (Ok Scenario.ok))
           Scenario.client "GET" "search?limit=5" [] ∅ Scenario.start).
  reflexivity.
Defined.

(** The standard join on some examples; the values are those of
    [urllib.parse.urljoin]. *)
Example standard_join_examples :
  UrlSpec.standard_join "https://api.example/base/" "search?limit=5"
    = "https://api.example/base/search?limit=5"%string
  ∧ UrlSpec.standard_join "https://api.example/base/" "/search"
    = "https://api.example/search"%string
  ∧ UrlSpec.standard_join "https://api.example/base" "search"
    = "https://api.example/search"%string
  ∧ UrlSpec.standard_join "https://api.example" "search"
    = "https://api.example/search"%string
  ∧ UrlSpec.standard_join "https://api.example/a/b" "c"
    = "https://api.example/a/c"%string
  ∧ UrlSpec.standard_join "https://api.example/a/b/" ""
    = "https://api.example/a/b/"%string.
Proof. repeat split. Qed.

(** On the relative path of the example, [urljoin] and the standard join
    agree. *)
Example urljoin_agrees_on_relative_example :
  urljoin "https://api.example/base/" "search?limit=5"
    = UrlSpec.standard_join "https://api.example/base/" "search?limit=5".
Proof. reflexivity. Qed.

(** C3, as stated, fails at the path "/search": the request goes to the URL
    "/search", which does not contain the configured server and has neither
    scheme nor host, while standard URL joining gives
    "https://api.example/search". *)
Lemma request_leading_slash_is_no_url_join :
  (RequestClient.request (Scenario.network (Ok Scenario.ok)) Scenario.client
     "GET" "/search" [] ∅ Scenario.start).2
    = mk_State ∅
        [EvRequest (mk_SessionCall "GET" "/search" []
                      {[ "timeout"%string := PyInt 30 ]})]
  ∧ UrlSpec.standard_join (server Scenario.client) "/search"
    = "https://api.example/search"%string
  ∧ String.prefix (server Scenario.client) "/search" = false.
Proof.
  split; [|split; reflexivity].
  rewrite request_run. reflexivity.
Qed.

(** C2, as the code has it.  Whatever response [Session.request] gives for
    the call: when its status code is in [400,599], [request] raises
    [HTTPError] carrying that response (status and body); for every other
    status code, and so for all of [200,299], [request] returns the response
    unchanged. *)
Theorem request_raises_for_client_and_server_errors
    env self method path args kwargs σ call r :
  trace (RequestClient.request env self method path args kwargs σ).2
    = trace σ ++ [EvRequest call] →
  session_send env (trace σ) call = Ok r →
  (400 ≤ status_code r < 600 →
     (RequestClient.request env self method path args kwargs σ).1
       = Err (HTTPError r))
  ∧ (¬ 400 ≤ status_code r < 600 →
     (RequestClient.request env self method path args kwargs σ).1 = Ok r)
  ∧ (200 ≤ status_code r ≤ 299 →
     (RequestClient.request env self method path args kwargs σ).1 = Ok r).
Proof.
  rewrite request_run. cbn [fst snd trace].
  intros Htr Hsend. apply app_inv_head in Htr. injection Htr as <-.
  rewrite Hsend.
  split; [|split]; intros Hs.
  - by rewrite bool_decide_eq_true_2.
  - by rewrite bool_decide_eq_false_2.
  - rewrite bool_decide_eq_false_2; [done | lia].
Qed.

Lemma request_raises_for_client_and_server_errors_witness :
  (400 ≤ status_code Scenario.not_found < 600)
  ∧ (RequestClient.request (Scenario.network (Ok Scenario.not_found))
       Scenario.client "GET" "items/7" [] ∅ Scenario.start).1
    = Err (HTTPError Scenario.not_found).
Proof.
  assert (Hs : 400 ≤ status_code Scenario.not_found < 600) by (cbn; lia).
  split; [exact Hs|].
  refine (proj1 (request_raises_for_client_and_server_errors
            (Scenario.network (Ok Scenario.not_found)) Scenario.client
            "GET" "items/7" [] ∅ Scenario.start
            (issued Scenario.client "GET" "items/7" [] ∅) Scenario.not_found
            _ _) Hs).
  - rewrite request_run. reflexivity.
  - reflexivity.
Defined.

(** C2, as stated, fails at status 304: the code lies outside [200,299],
    and [request] returns the response instead of raising. *)
Lemma request_returns_not_modified :
  status_code Scenario.not_modified = 304
  ∧ ¬ (200 ≤ status_code Scenario.not_modified ≤ 299)
  ∧ (RequestClient.request (Scenario.network (Ok Scenario.not_modified))
       Scenario.client "GET" "items/7" [] ∅ Scenario.start).1
    = Ok Scenario.not_modified.
Proof.
  split; [reflexivity|]. split; [cbn; lia|].
  rewrite request_run. reflexivity.
Qed.

(** ** [endpoint._parse_args] and [endpoint.execute] *)

(** The loop of [_parse_args] has nothing to run over: the query parameters
    and the passed-through keyword arguments are empty, whatever the call's
    keyword arguments are. *)
Lemma parse_args_run env d args kwargs :
  endpoint._parse_args env d args kwargs =
    cs ← endpoint.convert_args (map_args d) args;
    path ← Format.str_format env (path_template d) cs;
    Ok (path, ∅, ∅).
Proof.
  unfold endpoint._parse_args.
  destruct (endpoint.convert_args _ _) as [cs|e]; [|reflexivity].
  cbn [mbind result_bind].
  destruct (Format.str_format _ _ _) as [path|e]; [|reflexivity].
  cbn [mbind result_bind].
  rewrite map_to_list_empty. reflexivity.
Qed.

(** One run of [execute] on the object [d]. *)
Lemma execute_run env self client args kwargs σ d :
  heap σ !! self = Some d →
  endpoint.execute env self client args kwargs σ =
    match endpoint.convert_args (map_args d) args
          ≫= Format.str_format env (path_template d) with
    | Err e => (Err e, σ)
    | Ok path =>
        let call := endpoint_call client d path in
        let σ' := mk_State (heap σ) (trace σ ++ [EvRequest call]) in
        match session_send env (trace σ) call with
        | Err e => (Err e, σ')
        | Ok r =>
            if bool_decide (400 ≤ status_code r < 600)
            then (Err (HTTPError r), σ')
            else match func d with
                 | Some f =>
                     (f [PyClient client; PyResponse r],
                      mk_State (heap σ)
                        (trace σ ++ [EvRequest call;
                                     EvFunc [PyClient client; PyResponse r]]))
                 | None =>
                     (Err (TypeError "'NoneType' object is not callable"), σ')
                 end
        end
    end.
Proof.
  intros Hd. unfold endpoint.execute.
  rewrite M_bind_run. unfold read at 1. rewrite Hd.
  rewrite M_bind_run. unfold lift at 1. rewrite parse_args_run.
  destruct (endpoint.convert_args _ _) as [cs|e]; [|reflexivity]. cbn [mbind result_bind].
  destruct (Format.str_format _ _ _) as [path|e]; [|reflexivity]. cbn [mbind result_bind].
  rewrite M_bind_run. unfold lift at 1, endpoint.with_params.
  rewrite !lookup_empty. rewrite M_bind_run, request_run.
  fold (endpoint_call client d path).
  destruct (session_send env _ _) as [r|e]; [|reflexivity].
  destruct (bool_decide _); [reflexivity|].
  rewrite M_bind_run. unfold read. cbn [heap]. rewrite Hd.
  unfold endpoint.call_func. destruct (func d) as [f|]; [|reflexivity].
  rewrite M_bind_run. unfold log, lift. cbn [heap trace].
  rewrite <- app_assoc. reflexivity.
Qed.

(** The steps of [execute] up to the request, with the state the request
    leaves. *)
Lemma execute_after_request env self client args kwargs σ d
    path params passthrough options :
  heap σ !! self = Some d →
  endpoint._parse_args env d args kwargs = Ok (path, params, passthrough) →
  endpoint.with_params params passthrough = Ok options →
  endpoint.execute env self client args kwargs σ =
    match RequestClient.request env client (method d) path [] options σ with
    | (Ok r, σ') =>
        endpoint.call_func (func d) [PyClient client; PyResponse r] σ'
    | (Err e, σ') => (Err e, σ')
    end.
Proof.
  intros Hd Hparse Hopt. unfold endpoint.execute.
  rewrite M_bind_run. unfold read at 1. rewrite Hd.
  rewrite M_bind_run. unfold lift at 1. rewrite Hparse.
  rewrite M_bind_run. unfold lift at 1. rewrite Hopt.
  rewrite M_bind_run, request_run.
  destruct (session_send env _ _) as [r|e]; [|reflexivity].
  destruct (bool_decide _); [reflexivity|].
  rewrite M_bind_run. unfold read. cbn [heap]. by rewrite Hd.
Qed.

(** The decorated method forwards to [execute] unless a keyword argument
    collides with a parameter of [execute]; then it raises at once. *)
Lemma decorated_forwards env self client args kwargs :
  kwargs !! "self"%string = None → kwargs !! "client"%string = None →
  endpoint.decorated env self client args kwargs
    = endpoint.execute env self client args kwargs.
Proof. unfold endpoint.decorated. by intros -> ->. Qed.

Lemma decorated_run env self client args kwargs σ :
  endpoint.decorated env self client args kwargs σ
    = endpoint.execute env self client args kwargs σ
  ∨ endpoint.decorated env self client args kwargs σ
    = (Err (TypeError "got multiple values for argument"), σ).
Proof.
  unfold endpoint.decorated.
  destruct (kwargs !! "self"%string), (kwargs !! "client"%string); auto.
Qed.

(** ** [str.format] on templates with positional slots *)
Section PositionalTemplates.
Import Format Template.
Context (env : Externals).
Context (expand : string → list PyVal → AutoNumber → result (string * AutoNumber)).

Lemma snoc_append (out : string) (c : ascii) (s : string) :
  snoc out c +:+ s = out +:+ String c s.
Proof.
  unfold snoc. induction out as [|a out IH]; [reflexivity|].
  exact (f_equal (String a) IH).
Qed.

Lemma append_assoc (a b c : string) : (a +:+ b) +:+ c = a +:+ (b +:+ c).
Proof.
  induction a as [|x a IH]; [reflexivity | exact (f_equal (String x) IH)].
Qed.

Lemma append_empty_r (a : string) : a +:+ EmptyString = a.
Proof.
  induction a as [|x a IH]; [reflexivity | exact (f_equal (String x) IH)].
Qed.

Lemma style_tail st p ps : style st (p :: ps) → style st ps.
Proof.
  destruct st; cbn; rewrite ?andb_true_iff; intuition.
Qed.

Lemma formattable_tail p ps cs :
  formattable env (p :: ps) cs → formattable env ps cs.
Proof. intros H v f Hv Hf. apply H; [done | by right]. Qed.

(** A plain slot whose index is in range renders to the formatted argument. *)
Lemma output_markup_plain f cs an i an' v :
  plain f = true →
  resolve (field_arg f) an = Ok (Some i, an') →
  cs !! i = Some v →
  output_markup env expand f cs an
    = (s ← py_format env v (f_spec f); Ok (s, an')).
Proof.
  unfold plain. rewrite !andb_true_iff, negb_true_iff.
  intros [[Hrest Hconv] Hspec] Hres Hi.
  unfold output_markup, get_field_object. rewrite Hres. cbn [mbind result_bind].
  rewrite Hi, Hrest. cbn [mbind result_bind].
  destruct (f_conv f); [discriminate|]. cbn [mbind result_bind].
  rewrite Hspec. reflexivity.
Qed.

(** A slot whose index is out of range raises [IndexError]. *)
Lemma output_markup_short f cs an i an' :
  resolve (field_arg f) an = Ok (Some i, an') →
  cs !! i = None →
  output_markup env expand f cs an = Err IndexError.
Proof.
  intros Hres Hi. unfold output_markup, get_field_object.
  rewrite Hres. cbn [mbind result_bind]. rewrite Hi. reflexivity.
Qed.

(** The index a slot resolves to is the head of [indices]. *)
Lemma resolve_positional st next f ps :
  style st (Fld f :: ps) →
  ∃ i st' next',
    resolve (field_arg f) (mk_AutoNumber st next)
      = Ok (Some i, mk_AutoNumber st' next')
    ∧ plain f = true
    ∧ style st' ps
    ∧ indices (Fld f :: ps) next = i :: indices ps next'
    ∧ ((field_arg f = AutoArg ∧ i = next ∧ next' = S next)
       ∨ (field_arg f = IndexArg i ∧ next' = next)).
Proof.
  intros Hst. cbn [indices]. unfold resolve. cbn [an_state an_field_number].
  destruct st; cbn in Hst; rewrite ?andb_true_iff in Hst.
  - destruct Hst as [[[Hp Ha] Hps]|[[Hp Ha] Hps]];
      destruct (field_arg f) as [|n|k|]; try discriminate.
    + exists next, ANS_AUTO, (S next). repeat split; auto.
    + exists n, ANS_MANUAL, next. repeat split; auto.
  - destruct Hst as [[Hp Ha] Hps].
    destruct (field_arg f) as [|n|k|]; try discriminate.
    exists next, ANS_AUTO, (S next). repeat split; auto.
  - destruct Hst as [[Hp Ha] Hps].
    destruct (field_arg f) as [|n|k|]; try discriminate.
    exists n, ANS_MANUAL, next. repeat split; auto.
Qed.

Lemma do_markup_positional ps : ∀ cs st next out,
  style st ps →
  formattable env ps cs →
  (Forall (λ i, i < length cs)%nat (indices ps next) →
     ∃ s an, do_markup env expand ps cs (mk_AutoNumber st next) out
               = Ok (out +:+ s, an)
             ∧ Filled env cs ps next s)
  ∧ (Exists (λ i, length cs ≤ i)%nat (indices ps next) →
     do_markup env expand ps cs (mk_AutoNumber st next) out = Err IndexError).
Proof.
  induction ps as [|p ps IH]; intros cs st next out Hst Hfmt.
  - split.
    + intros _. exists EmptyString, (mk_AutoNumber st next).
      rewrite append_empty_r. split; [reflexivity | constructor].
    + cbn. intros H. by apply Exists_nil in H.
  - destruct p as [c|f|e].
    + destruct (IH cs st next (snoc out c) (style_tail _ _ _ Hst)
                  (formattable_tail _ _ _ Hfmt)) as [IHok IHerr].
      cbn [indices do_markup]. split.
      * intros Hall. destruct (IHok Hall) as (s & an & Hrun & Hfill).
        exists (String c s), an. rewrite Hrun, snoc_append.
        split; [reflexivity | by constructor].
      * intros Hex. by apply IHerr.
    + destruct (resolve_positional st next f ps Hst)
        as (i & st' & next' & Hres & Hplain & Hst' & Hidx & Hkind).
      rewrite Hidx. cbn [do_markup].
      destruct (cs !! i) as [v|] eqn:Hi.
      * rewrite (output_markup_plain _ _ _ _ _ _ Hplain Hres Hi).
        destruct (Hfmt v f) as [t Ht];
          [by eapply list_elem_of_lookup_2 | by left |].
        rewrite Ht. cbn [mbind result_bind].
        destruct (IH cs st' next' (out +:+ t) Hst'
                    (formattable_tail _ _ _ Hfmt)) as [IHok IHerr].
        split.
        -- intros Hall. apply Forall_cons in Hall as [_ Hall].
           destruct (IHok Hall) as (s & an & Hrun & Hfill).
           exists (t +:+ s), an. rewrite Hrun, append_assoc.
           split; [reflexivity|].
           destruct Hkind as [(Harg & -> & ->)|(Harg & ->)].
           ++ by eapply Filled_auto.
           ++ by eapply Filled_index.
        -- intros Hex. apply Exists_cons in Hex as [Hex|Hex].
           ++ apply lookup_lt_Some in Hi. lia.
           ++ by apply IHerr.
      * rewrite (output_markup_short _ _ _ _ _ Hres Hi). cbn [mbind result_bind].
        split; [|done].
        intros Hall. apply Forall_cons in Hall as [Hlt _].
        apply lookup_ge_None in Hi. lia.
    + destruct st; cbn in Hst; intuition discriminate.
Qed.

End PositionalTemplates.

Section StrFormat.
Import Format Template.

Lemma slots_le_Forall (l : list nat) (n : nat) :
  (foldr (λ i m, Nat.max (S i) m) 0 l ≤ n)%nat ↔ Forall (λ i, i < n)%nat l.
Proof.
  induction l as [|i l IH]; cbn [foldr].
  - split; [constructor | lia].
  - rewrite Forall_cons, <- IH. lia.
Qed.

Lemma slots_gt_Exists (l : list nat) (n : nat) :
  (n < foldr (λ i m, Nat.max (S i) m) 0 l)%nat ↔ Exists (λ i, n ≤ i)%nat l.
Proof.
  induction l as [|i l IH]; cbn [foldr].
  - rewrite Exists_nil. lia.
  - rewrite Exists_cons, <- IH. lia.
Qed.

Lemma positional_style ps : positional ps = true → style ANS_INIT ps.
Proof. unfold positional. rewrite orb_true_iff. done. Qed.

(** [str.format] on a template with positional slots: with enough
    arguments every slot is filled, with too few [IndexError] is raised. *)
Lemma str_format_positional env template cs :
  positional (markup template) = true →
  formattable env (markup template) cs →
  ((slots (markup template) ≤ length cs)%nat →
     ∃ path, str_format env template cs = Ok path
             ∧ Filled env cs (markup template) 0 path)
  ∧ ((length cs < slots (markup template))%nat →
     str_format env template cs = Err IndexError).
Proof.
  intros Hpos Hfmt. unfold str_format, slots.
  change (build_string env 2 template cs auto_number_init)
    with (do_markup env (build_string env 1) (markup template) cs
            auto_number_init EmptyString).
  destruct (do_markup_positional env (build_string env 1) (markup template)
              cs ANS_INIT 0 EmptyString (positional_style _ Hpos) Hfmt)
    as [Hok Herr].
  fold auto_number_init in Hok, Herr.
  split.
  - intros Hle. apply slots_le_Forall in Hle.
    destruct (Hok Hle) as (s & an & -> & Hfill). by exists s.
  - intros Hlt. apply slots_gt_Exists in Hlt. by rewrite (Herr Hlt).
Qed.

End StrFormat.


(** ** [str.format] on any template: too few arguments *)
Section TooFewArguments.
Import Format Template.
Context (env : Externals).

Lemma resolve_counts_up a an idx an' :
  resolve a an = Ok (idx, an') →
  (an_field_number an ≤ an_field_number an')%nat.
Proof.
  unfold resolve. destruct a, (an_state an); intros [= <- <-]; cbn; lia.
Qed.

(** What a slot that rendered tells: its index was in range, and the
    counter did not go down. *)
Lemma output_markup_Ok expand f cs an s an' :
  counts_up expand →
  output_markup env expand f cs an = Ok (s, an') →
  ∃ i an1,
    resolve (field_arg f) an = Ok (Some i, an1)
    ∧ (i < length cs)%nat
    ∧ (an_field_number an1 ≤ an_field_number an')%nat.
Proof.
  intros Hup. unfold output_markup, get_field_object.
  destruct (resolve (field_arg f) an) as [[[i|] an1]|e];
    cbn [mbind result_bind]; try discriminate.
  destruct (cs !! i) as [v|] eqn:Hi; cbn [mbind result_bind]; [|discriminate].
  destruct (if Str.is_empty (field_rest f) then _ else _) as [obj|e];
    cbn [mbind result_bind]; [|discriminate].
  destruct (match f_conv f with Some _ => _ | None => _ end) as [obj'|e];
    cbn [mbind result_bind]; [|discriminate].
  destruct (Str.contains_char _ _).
  - destruct (expand _ _ _) as [[spec an2]|e] eqn:Hexp;
      cbn [mbind result_bind]; [|discriminate].
    destruct (py_format _ _ _); cbn [mbind result_bind]; [|discriminate].
    intros [= <- <-]. exists i, an1. split; [done|].
    split; [by eapply lookup_lt_Some | by eapply Hup].
  - cbn [mbind result_bind].
    destruct (py_format _ _ _); cbn [mbind result_bind]; [|discriminate].
    intros [= <- <-]. exists i, an1. split; [done|].
    split; [by eapply lookup_lt_Some | done].
Qed.

Lemma do_markup_counts_up expand ps :
  counts_up expand →
  ∀ cs an out s an',
    do_markup env expand ps cs an out = Ok (s, an') →
    (an_field_number an ≤ an_field_number an')%nat.
Proof.
  intros Hup. induction ps as [|[c|f|e] ps IH]; intros cs an out s an'; cbn.
  - by intros [= <- <-].
  - apply IH.
  - destruct (output_markup env expand f cs an) as [[t an1]|e] eqn:Hf;
      cbn [mbind result_bind]; [|discriminate].
    intros Hrest. apply IH in Hrest.
    destruct (output_markup_Ok _ _ _ _ _ _ Hup Hf) as (i & an0 & Hres & _ & Hle).
    apply resolve_counts_up in Hres. lia.
  - discriminate.
Qed.

Lemma build_string_counts_up depth : counts_up (build_string env depth).
Proof.
  induction depth as [|depth IH]; intros spec args an s an'; cbn.
  - discriminate.
  - by apply do_markup_counts_up.
Qed.

(** When some numbered slot looks up an index the arguments do not have,
    the template cannot be filled. *)
Lemma do_markup_short expand ps :
  counts_up expand →
  ∀ cs an out next,
    (next ≤ an_field_number an)%nat →
    Exists (λ i, length cs ≤ i)%nat (indices ps next) →
    ∃ e, do_markup env expand ps cs an out = Err e.
Proof.
  intros Hup. induction ps as [|[c|f|e] ps IH]; intros cs an out next Hnext; cbn.
  - intros H. by apply Exists_nil in H.
  - by apply IH.
  - destruct (output_markup env expand f cs an) as [[t an']|e] eqn:Hf;
      cbn [mbind result_bind]; [|by eexists].
    destruct (output_markup_Ok _ _ _ _ _ _ Hup Hf) as (i & an1 & Hres & Hi & Hle).
    unfold resolve in Hres.
    destruct (field_arg f) as [|n|k|]; try discriminate.
    + destruct (an_state an); try discriminate;
        injection Hres as <- <-; cbn in Hle;
        (intros [Hex|Hex]%Exists_cons; [lia | eapply IH; [|done]; lia]).
    + destruct (an_state an); try discriminate;
        injection Hres as <- <-; cbn in Hle;
        (intros [Hex|Hex]%Exists_cons; [lia | eapply IH; [|done]; lia]).
  - by eexists.
Qed.

Lemma str_format_short template cs :
  (length cs < slots (markup template))%nat →
  ∃ e, str_format env template cs = Err e.
Proof.
  intros Hlt%slots_gt_Exists. unfold str_format.
  change (build_string env 2 template cs auto_number_init)
    with (do_markup env (build_string env 1) (markup template) cs
            auto_number_init EmptyString).
  destruct (do_markup_short (build_string env 1) (markup template)
              (build_string_counts_up 1) cs auto_number_init EmptyString 0%nat)
    as [e He]; [cbn; lia | done |].
  exists e. by rewrite He.
Qed.

End TooFewArguments.

(** Strings can be formatted under the empty spec. *)
Lemma formattable_bare_strings env ps cs :
  Template.bare ps = true →
  forallb Template.is_str cs = true →
  Template.formattable env ps cs.
Proof.
  unfold Template.bare. rewrite !forallb_forall.
  intros Hbare Hstr v f Hv Hf.
  apply list_elem_of_In in Hv, Hf.
  specialize (Hbare _ Hf). specialize (Hstr _ Hv). cbn in Hbare.
  destruct v; try discriminate.
  destruct (Format.f_spec f); [|discriminate].
  by eexists.
Qed.

(** ** The positional converters *)

Lemma convert_args_length fs : ∀ args cs,
  endpoint.convert_args fs args = Ok cs →
  length cs = Nat.min (length fs) (length args).
Proof.
  induction fs as [|f fs IH]; intros [|v args] cs; cbn;
    try (intros [= <-]; reflexivity).
  destruct (f v) as [c|e]; [|discriminate]. cbn [mbind result_bind].
  destruct (endpoint.convert_args fs args) as [cs'|e] eqn:Hrest; [|discriminate].
  intros [= <-]. cbn. f_equal. by apply IH.
Qed.

Lemma convert_args_lookup fs : ∀ args cs i f v,
  endpoint.convert_args fs args = Ok cs →
  fs !! i = Some f → args !! i = Some v →
  ∃ c, f v = Ok c ∧ cs !! i = Some c.
Proof.
  induction fs as [|g fs IH]; intros [|w args] cs i f v; cbn; try done.
  destruct (g w) as [c|e] eqn:Hg; [|discriminate]. cbn [mbind result_bind].
  destruct (endpoint.convert_args fs args) as [cs'|e] eqn:Hrest; [|discriminate].
  intros [= <-]. destruct i as [|i]; cbn.
  - intros [= <-] [= <-]. by exists c.
  - intros Hf Hv. by eapply IH.
Qed.

(** The exception of [convert_args] comes from the first converter that
    raises, on its way out of the generator; the converters before it
    returned. *)
Lemma convert_args_first_error fs : ∀ args e,
  endpoint.convert_args fs args = Err e →
  ∃ i f v e', fs !! i = Some f ∧ args !! i = Some v ∧ f v = Err e'
    ∧ e = endpoint.raised_in_generator e'
    ∧ ∀ j g w, (j < i)%nat → fs !! j = Some g → args !! j = Some w →
        is_Ok (g w).
Proof.
  induction fs as [|g fs IH]; intros [|w args] e; cbn; try done.
  destruct (g w) as [c|e'] eqn:Hg; cbn [mbind result_bind].
  - destruct (endpoint.convert_args fs args) as [cs'|e'] eqn:Hrest; [done|].
    intros [= <-].
    destruct (IH _ _ Hrest) as (i & f & v & e0 & Hf & Hv & Hfv & He & Hbefore).
    exists (S i), f, v, e0. repeat split; try done.
    intros [|j] g' w' Hj; cbn.
    + intros [= <-] [= <-]. by exists c.
    + intros Hg' Hw'. eapply Hbefore; [|done..]. lia.
  - intros [= <-]. exists 0%nat, g, w, e'. repeat split; try done. lia.
Qed.

(** The other way round: the first converter that raises decides the
    exception of [convert_args]. *)
Lemma convert_args_error_at fs : ∀ args i f v e,
  fs !! i = Some f → args !! i = Some v → f v = Err e →
  (∀ j g w, (j < i)%nat → fs !! j = Some g → args !! j = Some w →
     is_Ok (g w)) →
  endpoint.convert_args fs args = Err (endpoint.raised_in_generator e).
Proof.
  induction fs as [|g fs IH]; intros [|w args] i f v e; try done.
  destruct i as [|i]; cbn.
  - intros [= <-] [= <-] Hfv _. by rewrite Hfv.
  - intros Hf Hv Hfv Hbefore.
    destruct (Hbefore 0%nat g w) as [c Hc]; [lia | done | done |].
    rewrite Hc. cbn [endpoint.in_generator mbind result_bind].
    rewrite (IH args i f v e Hf Hv Hfv); [done|].
    intros j g' w' Hj Hg' Hw'. apply (Hbefore (S j)); [lia | done..].
Qed.

Lemma convert_args_take fs : ∀ args,
  endpoint.convert_args fs args
    = endpoint.convert_args fs (take (length fs) args).
Proof.
  induction fs as [|f fs IH]; intros [|v args]; cbn; try reflexivity.
  by rewrite <- IH.
Qed.

(** C6.  The positional converters are applied in the order of their
    declaration, each to the positional argument at its own index, and only
    as far as the shorter of the two lists goes: there are
    [min(len(map_args), len(args))] converted values, the i-th is
    [map_args[i](args[i])], and only the converted values reach the
    template.  When a converter raises after the converters before it
    returned, [_parse_args] raises its exception (as [RuntimeError] when it
    is a [StopIteration], which cannot leave the generator the converters
    run in) and the converters after it are not applied.  Positional
    arguments beyond the number of converters change nothing: they are
    neither converted nor substituted. *)
Theorem positional_converters_apply_by_index env d args kwargs :
  endpoint._parse_args env d args kwargs
    = endpoint._parse_args env d (take (length (map_args d)) args) kwargs
  ∧ ((length (map_args d) ≤ length args)%nat → ∀ extra,
       endpoint._parse_args env d (args ++ extra) kwargs
         = endpoint._parse_args env d args kwargs)
  ∧ (∀ cs, endpoint.convert_args (map_args d) args = Ok cs →
       length cs = Nat.min (length (map_args d)) (length args)
       ∧ (∀ i f v, map_args d !! i = Some f → args !! i = Some v →
            ∃ c, f v = Ok c ∧ cs !! i = Some c)
       ∧ endpoint._parse_args env d args kwargs
           = (path ← Format.str_format env (path_template d) cs;
              Ok (path, ∅, ∅)))
  ∧ (∀ i f v e,
       map_args d !! i = Some f → args !! i = Some v → f v = Err e →
       (∀ j g w, (j < i)%nat → map_args d !! j = Some g →
          args !! j = Some w → is_Ok (g w)) →
       endpoint._parse_args env d args kwargs
         = Err (endpoint.raised_in_generator e))
  ∧ (∀ e, endpoint.convert_args (map_args d) args = Err e →
       ∃ i f v e', map_args d !! i = Some f ∧ args !! i = Some v
         ∧ f v = Err e'
         ∧ e = endpoint.raised_in_generator e'
         ∧ ∀ j g w, (j < i)%nat → map_args d !! j = Some g →
             args !! j = Some w → is_Ok (g w)).
Proof.
  split; [|split; [|split; [|split]]].
  - rewrite !parse_args_run. by rewrite <- convert_args_take.
  - intros Hlen extra. rewrite !parse_args_run.
    rewrite (convert_args_take _ (args ++ extra)), (convert_args_take _ args).
    by rewrite take_app_le.
  - intros cs Hcs. split; [by apply convert_args_length|].
    split; [intros i f v; by apply convert_args_lookup|].
    rewrite parse_args_run, Hcs. reflexivity.
  - intros i f v e Hf Hv Hfv Hbefore.
    by rewrite parse_args_run,
      (convert_args_error_at _ _ _ _ _ _ Hf Hv Hfv Hbefore).
  - intros e He. by apply convert_args_first_error.
Qed.

(** C4.  Let the converters return [cs].  When the slots of the path
    template ask for more arguments than [cs] supplies, the decorated call
    fails at once: no request goes out, the wrapped method is not called,
    the state is as before.  The exception is the one [str.format] raises
    (unless a keyword argument of the call collides with a parameter name,
    which is a [TypeError] before anything else).  For a template of literal
    text and positional slots whose specs [cs] can be formatted under, that
    exception is [IndexError], the format error for a missing argument.
    With exactly N converters and N arguments for such a template whose
    slots ask for N arguments at most, [_parse_args] raises nothing and
    returns the path with every slot filled. *)
Theorem format_error_when_slots_exceed_arguments
    env self client args kwargs σ d cs :
  heap σ !! self = Some d →
  endpoint.convert_args (map_args d) args = Ok cs →
  ((length cs < Template.slots (Format.markup (path_template d)))%nat →
     ∃ e,
       endpoint.decorated env self client args kwargs σ = (Err e, σ)
       ∧ (kwargs !! "self"%string = None → kwargs !! "client"%string = None →
          Format.str_format env (path_template d) cs = Err e
          ∧ (Template.positional (Format.markup (path_template d)) = true →
             Template.formattable env (Format.markup (path_template d)) cs →
             e = IndexError)))
  ∧ (∀ N,
       Template.positional (Format.markup (path_template d)) = true →
       Template.formattable env (Format.markup (path_template d)) cs →
       length (map_args d) = N → length args = N →
       (Template.slots (Format.markup (path_template d)) ≤ N)%nat →
       ∃ path,
         endpoint._parse_args env d args kwargs = Ok (path, ∅, ∅)
         ∧ Template.Filled env cs (Format.markup (path_template d)) 0 path).
Proof.
  intros Hd Hcs. split.
  - intros Hlt. destruct (str_format_short env _ _ Hlt) as [e He].
    assert (Hexec : endpoint.execute env self client args kwargs σ = (Err e, σ)).
    { rewrite (execute_run _ _ _ _ _ _ _ Hd), Hcs.
      cbn [mbind result_bind]. by rewrite He. }
    destruct (kwargs !! "self"%string) as [v|] eqn:Hself;
      [|destruct (kwargs !! "client"%string) as [v|] eqn:Hclient].
    + eexists. split; [|done].
      unfold endpoint.decorated. rewrite Hself. reflexivity.
    + eexists. split; [|done].
      unfold endpoint.decorated. rewrite Hself, Hclient. reflexivity.
    + exists e. split.
      * by rewrite decorated_forwards.
      * intros _ _. split; [done|]. intros Hpos Hfmt.
        destruct (str_format_positional env _ cs Hpos Hfmt) as [_ Hshort].
        rewrite (Hshort Hlt) in He. congruence.
  - intros N Hpos Hfmt Hfs Hargs Hle.
    destruct (str_format_positional env _ cs Hpos Hfmt) as [Hok _].
    apply convert_args_length in Hcs as Hlen.
    destruct Hok as (path & Hpath & Hfill); [lia|].
    exists path. split; [|done].
    rewrite parse_args_run, Hcs. cbn [mbind result_bind].
    by rewrite Hpath.
Qed.

Lemma format_error_when_slots_exceed_arguments_witness :
  (length [PyStr "7"]
     < Template.slots (Format.markup "items/{}?{}"))%nat
  ∧ endpoint.decorated (Scenario.network (Ok Scenario.ok)) 0%nat Scenario.client
      [PyStr "7"] ∅
      (Scenario.store (Scenario.items (Scenario.network (Ok Scenario.ok))))
    = (Err IndexError,
       Scenario.store (Scenario.items (Scenario.network (Ok Scenario.ok)))).
Proof.
  assert (Hlt : (length [PyStr "7"]
                   < Template.slots (Format.markup "items/{}?{}"))%nat)
    by (vm_compute; lia).
  split; [exact Hlt|].
  destruct (proj1 (format_error_when_slots_exceed_arguments
              (Scenario.network (Ok Scenario.ok)) 0%nat Scenario.client
              [PyStr "7"] ∅
              (Scenario.store (Scenario.items (Scenario.network (Ok Scenario.ok))))
              (Scenario.items (Scenario.network (Ok Scenario.ok)))
              [PyStr "7"] eq_refl eq_refl) Hlt)
    as (e & Hrun & Hformat).
  rewrite Hrun. f_equal. f_equal.
  apply (Hformat eq_refl eq_refl); [reflexivity|].
  apply formattable_bare_strings; reflexivity.
Defined.

(** The template of the example, filled in. *)
Example parse_args_items :
  endpoint._parse_args (Scenario.network (Ok Scenario.ok))
    (Scenario.items (Scenario.network (Ok Scenario.ok)))
    [PyStr "7"; PyInt 5] ∅
  = Ok ("items/7?5"%string, ∅, ∅).
Proof. reflexivity. Qed.

(** ** The decorated method *)

(** [__call__] stores the function in the object and returns the decorated
    method. *)
Lemma call_stores_func env self f σ d :
  heap σ !! self = Some d →
  ∃ decorated σ',
    endpoint.__call__ env self f σ = (Ok decorated, σ')
    ∧ decorated = endpoint.decorated env self
    ∧ trace σ' = trace σ
    ∧ heap σ' !! self
        = Some (mk_Endpoint (method d) (path_template d) (map_args d)
                  (map_kwargs d) (Some f))
    ∧ ∀ l, l ≠ self → heap σ' !! l = heap σ !! l.
Proof.
  intros Hd. unfold endpoint.__call__. rewrite M_bind_run.
  unfold set_func. rewrite Hd. eexists _, _. split; [reflexivity|].
  split; [reflexivity|]. split; [reflexivity|]. cbn [heap]. split.
  - by rewrite lookup_insert_eq.
  - intros l Hl. by rewrite lookup_insert_ne.
Qed.

(** C7.  When [client.request] returns a response for the parsed path and
    options, the call of the decorated method invokes the wrapped method
    with exactly two arguments, the client and that response, and what the
    wrapped method returns (or raises) is what the call returns (or
    raises).  In every run the wrapped method is invoked at most once, after
    the one request, and never with anything but the client and a response:
    the call's own arguments do not reach it. *)
Theorem wrapped_method_gets_client_and_response
    env self client args kwargs σ d f :
  heap σ !! self = Some d →
  func d = Some f →
  (∀ path params passthrough options r σ',
      kwargs !! "self"%string = None →
      kwargs !! "client"%string = None →
      endpoint._parse_args env d args kwargs = Ok (path, params, passthrough) →
      endpoint.with_params params passthrough = Ok options →
      RequestClient.request env client (method d) path [] options σ
        = (Ok r, σ') →
      endpoint.decorated env self client args kwargs σ
        = (f [PyClient client; PyResponse r],
           mk_State (heap σ)
             (trace σ' ++ [EvFunc [PyClient client; PyResponse r]])))
  ∧ ∃ evs,
      (endpoint.decorated env self client args kwargs σ).2
        = mk_State (heap σ) (trace σ ++ evs)
      ∧ ∀ a, EvFunc a ∈ evs →
          ∃ call r,
            a = [PyClient client; PyResponse r]
            ∧ evs = [EvRequest call; EvFunc a]
            ∧ (endpoint.decorated env self client args kwargs σ).1 = f a.
Proof.
  intros Hd Hf. split.
  - intros path params passthrough options r σ' Hself Hclient Hparse Hopt Hreq.
    rewrite (decorated_forwards _ _ _ _ _ Hself Hclient).
    rewrite (execute_after_request _ _ _ _ _ _ _ _ _ _ _ Hd Hparse Hopt), Hreq, Hf.
    unfold endpoint.call_func. rewrite M_bind_run. unfold log, lift.
    rewrite request_run in Hreq. injection Hreq as _ <-. reflexivity.
  - assert (Hnil : ∀ τ : State, τ = mk_State (heap τ) (trace τ ++ [])).
    { intros [h t]. cbn. by rewrite app_nil_r. }
    destruct (decorated_run env self client args kwargs σ) as [->| ->].
    2:{ exists []. split; [apply Hnil|]. intros a Hin. by apply elem_of_nil in Hin. }
    rewrite (execute_run _ _ _ _ _ _ _ Hd), Hf.
    destruct (endpoint.convert_args _ _ ≫= _) as [path|e].
    2:{ exists []. split; [apply Hnil|]. intros a Hin. by apply elem_of_nil in Hin. }
    cbn zeta.
    assert (Hreq : ∀ call a, EvFunc a ∈ [EvRequest call] → False).
    { intros call a Hin. by apply list_elem_of_singleton in Hin. }
    destruct (session_send env _ _) as [r|e].
    2:{ eexists. split; [reflexivity|]. intros a Hin. by apply Hreq in Hin. }
    destruct (bool_decide _).
    { eexists. split; [reflexivity|]. intros a Hin. by apply Hreq in Hin. }
    eexists. split; [reflexivity|].
    intros a [Hin|Hin]%elem_of_cons; [discriminate|].
    apply list_elem_of_singleton in Hin. injection Hin as ->.
    by eexists _, r.
Qed.

Lemma wrapped_method_gets_client_and_response_witness :
  endpoint.decorated (Scenario.network (Ok Scenario.ok)) 0%nat Scenario.client
    [PyStr "7"; PyInt 5] ∅
    (Scenario.store (Scenario.items (Scenario.network (Ok Scenario.ok))))
  = (Scenario.return_text [PyClient Scenario.client; PyResponse Scenario.ok],
     mk_State {[ 0%nat := Scenario.items (Scenario.network (Ok Scenario.ok)) ]}
       ([EvRequest
           (mk_SessionCall "GET" "https://api.example/base/items/7?5" []
              {[ "params"%string := PyDict ∅; "timeout"%string := PyInt 30 ]})]
          ++ [EvFunc [PyClient Scenario.client; PyResponse Scenario.ok]])).
Proof.
  apply (proj1 (wrapped_method_gets_client_and_response
                  (Scenario.network (Ok Scenario.ok)) 0%nat Scenario.client
                  [PyStr "7"; PyInt 5] ∅
                  (Scenario.store (Scenario.items (Scenario.network (Ok Scenario.ok))))
                  (Scenario.items (Scenario.network (Ok Scenario.ok)))
                  Scenario.return_text eq_refl eq_refl)
           "items/7?5"%string ∅ ∅ {[ "params"%string := PyDict ∅ ]} Scenario.ok
           (mk_State
              {[ 0%nat := Scenario.items (Scenario.network (Ok Scenario.ok)) ]}
              [EvRequest
                 (mk_SessionCall "GET" "https://api.example/base/items/7?5" []
                    {[ "params"%string := PyDict ∅;
                       "timeout"%string := PyInt 30 ]})]));
    reflexivity.
Defined.

(** The end-to-end run of the example: one GET goes out, the wrapped method
    is called with the client and the response, and its value is the value
    of the call. *)
Example decorated_items :
  endpoint.decorated (Scenario.network (Ok Scenario.ok)) 0%nat Scenario.client
    [PyStr "7"; PyInt 5] ∅
    (Scenario.store (Scenario.items (Scenario.network (Ok Scenario.ok))))
  = (Ok (PyStr "[]"),
     mk_State {[ 0%nat := Scenario.items (Scenario.network (Ok Scenario.ok)) ]}
       [EvRequest
          (mk_SessionCall "GET" "https://api.example/base/items/7?5" []
             {[ "params"%string := PyDict ∅; "timeout"%string := PyInt 30 ]});
        EvFunc [PyClient Scenario.client; PyResponse Scenario.ok]]).
Proof. vm_compute. reflexivity. Qed.

(** [execute] only reads the store, and its outcome is determined by the
    object, its parameters and the trace. *)
Lemma execute_reads_only env self client args kwargs σ :
  heap (endpoint.execute env self client args kwargs σ).2 = heap σ
  ∧ ∀ σ2, heap σ2 !! self = heap σ !! self → trace σ2 = trace σ →
      (endpoint.execute env self client args kwargs σ2).1
        = (endpoint.execute env self client args kwargs σ).1
      ∧ trace (endpoint.execute env self client args kwargs σ2).2
        = trace (endpoint.execute env self client args kwargs σ).2.
Proof.
  assert (Hnone : ∀ τ, heap τ !! self = None →
            endpoint.execute env self client args kwargs τ
              = (Err (TypeError "not an endpoint object"), τ)).
  { intros τ Hτ. unfold endpoint.execute. rewrite M_bind_run.
    unfold read. by rewrite Hτ. }
  destruct (heap σ !! self) as [d|] eqn:Hd.
  - split.
    + rewrite (execute_run _ _ _ _ _ _ _ Hd).
      destruct (endpoint.convert_args _ _ ≫= _); [|reflexivity]. cbn zeta.
      destruct (session_send env _ _); [|reflexivity].
      destruct (bool_decide _); [reflexivity|].
      destruct (func d); reflexivity.
    + intros σ2 Hh Htr.
      rewrite (execute_run _ _ _ _ _ _ _ Hd), (execute_run _ _ _ _ _ _ _ Hh).
      rewrite Htr.
      destruct (endpoint.convert_args _ _ ≫= _); [|done]. cbn zeta.
      destruct (session_send env _ _); [|done].
      destruct (bool_decide _); [done|].
      destruct (func d); done.
  - split.
    + by rewrite (Hnone _ Hd).
    + intros σ2 Hh Htr. by rewrite (Hnone _ Hd), (Hnone _ Hh).
Qed.

(** C9.  A call of the decorated method leaves every endpoint object as it
    was, whatever the outcome of the call: method, path template, converters
    and wrapped function are only read.  Nothing of a call is kept in the
    object: the outcome of a call is determined by the object, the call's
    parameters and the calls that went out before. *)
Theorem decorated_call_leaves_descriptor_unchanged
    env self client args kwargs σ :
  heap (endpoint.decorated env self client args kwargs σ).2 = heap σ
  ∧ ∀ σ2, heap σ2 !! self = heap σ !! self → trace σ2 = trace σ →
      (endpoint.decorated env self client args kwargs σ2).1
        = (endpoint.decorated env self client args kwargs σ).1
      ∧ trace (endpoint.decorated env self client args kwargs σ2).2
        = trace (endpoint.decorated env self client args kwargs σ).2.
Proof.
  unfold endpoint.decorated.
  destruct (kwargs !! "self"%string), (kwargs !! "client"%string);
    try (split; [reflexivity | intros σ2 _ Htr; split; [reflexivity | exact Htr]]).
  exact (execute_reads_only env self client args kwargs σ).
Qed.



(** Decorating a second function with the same object rebinds the function
    of the first decorated method as well: both forward to the one object. *)
Lemma second_decoration_rebinds_the_first env self f g σ d :
  heap σ !! self = Some d →
  ∃ first second σ',
    (endpoint.__call__ env self f
       ≫= λ first, endpoint.__call__ env self g
       ≫= λ second, mret (first, second)) σ
      = (Ok (first, second), σ')
    ∧ first = second
    ∧ func <$> heap σ' !! self = Some (Some g).
Proof.
  intros Hd.
  destruct (call_stores_func env self f σ d Hd)
    as (first & σ1 & Hrun1 & -> & _ & Hd1 & _).
  destruct (call_stores_func env self g σ1 _ Hd1)
    as (second & σ2 & Hrun2 & -> & _ & Hd2 & _).
  exists (endpoint.decorated env self), (endpoint.decorated env self), σ2.
  split; [|split; [reflexivity|]].
  - rewrite M_bind_run, Hrun1, M_bind_run, Hrun2. reflexivity.
  - by rewrite Hd2.
Qed.

(** C1, on the code.  With the named converters [{"q": str}], the call with
    [q="x", headers=h] sends no query parameter and passes nothing through:
    [_parse_args] returns two empty dictionaries, and the request goes out
    with [params={}] and the default timeout only.  The loop of
    [_parse_args], run over the keyword arguments of the call, gives what
    the documentation promises: [{"q": "x"}] and [{"headers": h}]. *)
Theorem keyword_arguments_are_dropped :
  endpoint._parse_args (Scenario.network (Ok Scenario.ok))
    (Scenario.search_q (Scenario.network (Ok Scenario.ok))) []
    {[ "q"%string := PyStr "x"; "headers"%string := PyObj 7 ]}
  = Ok ("search"%string, ∅, ∅)
  ∧ endpoint.parse_items
      (map_kwargs (Scenario.search_q (Scenario.network (Ok Scenario.ok))))
      (map_to_list ({[ "q"%string := PyStr "x"; "headers"%string := PyObj 7 ]}
                      : gmap string PyVal)) ∅ ∅
    = Ok ({[ "q"%string := PyStr "x" ]}, {[ "headers"%string := PyObj 7 ]})
  ∧ endpoint.decorated (Scenario.network (Ok Scenario.ok)) 0%nat Scenario.client
      [] {[ "q"%string := PyStr "x"; "headers"%string := PyObj 7 ]}
      (Scenario.store (Scenario.search_q (Scenario.network (Ok Scenario.ok))))
    = (Ok (PyStr "[]"),
       mk_State
         {[ 0%nat := Scenario.search_q (Scenario.network (Ok Scenario.ok)) ]}
         [EvRequest
            (mk_SessionCall "GET" "https://api.example/base/search" []
               {[ "params"%string := PyDict ∅; "timeout"%string := PyInt 30 ]});
          EvFunc [PyClient Scenario.client; PyResponse Scenario.ok]]).
Proof.
  split; [|split].
  - rewrite parse_args_run. reflexivity.
  - vm_compute. reflexivity.
  - vm_compute. reflexivity.
Qed.

(** * More properties of the code *)

(** ** [RequestClient.request] *)

(** Every call of [request] makes exactly one call of [Session.request],
    with the method and the positional arguments as given, and changes
    nothing else; there is no second attempt.  An exception of
    [Session.request] is the exception of [request]. *)
Theorem request_sends_exactly_one_call env self method path args kwargs σ :
  ∃ call,
    (RequestClient.request env self method path args kwargs σ).2
      = mk_State (heap σ) (trace σ ++ [EvRequest call])
    ∧ sc_method call = method
    ∧ sc_args call = args
    ∧ ∀ e, session_send env (trace σ) call = Err e →
        (RequestClient.request env self method path args kwargs σ).1 = Err e.
Proof.
  exists (issued self method path args kwargs). rewrite request_run.
  repeat split. intros e He. cbn [fst]. by rewrite He.
Qed.

(** ** [endpoint.execute] *)

(** The events of one run of [execute]: nothing, one request, or one request
    and one call of the wrapped method; the request is the one for the path
    the template gave. *)
Lemma execute_events env self client args kwargs σ :
  ∃ evs,
    (endpoint.execute env self client args kwargs σ).2
      = mk_State (heap σ) (trace σ ++ evs)
    ∧ ∀ call, EvRequest call ∈ evs →
        ∃ d cs path,
          heap σ !! self = Some d
          ∧ endpoint.convert_args (map_args d) args = Ok cs
          ∧ Format.str_format env (path_template d) cs = Ok path
          ∧ call = endpoint_call client d path.
Proof.
  destruct (heap σ !! self) as [d|] eqn:Hd.
  2:{ exists []. unfold endpoint.execute. rewrite M_bind_run.
      unfold read. rewrite Hd. rewrite app_nil_r. split; [by destruct σ|].
      intros call Hin. by apply elem_of_nil in Hin. }
  rewrite (execute_run _ _ _ _ _ _ _ Hd).
  destruct (endpoint.convert_args _ _) as [cs|e] eqn:Hcs;
    cbn [mbind result_bind].
  2:{ exists []. rewrite app_nil_r. split; [by destruct σ|].
      intros call Hin. by apply elem_of_nil in Hin. }
  destruct (Format.str_format _ _ _) as [path|e] eqn:Hpath.
  2:{ exists []. rewrite app_nil_r. split; [by destruct σ|].
      intros call Hin. by apply elem_of_nil in Hin. }
  cbn zeta.
  assert (Hone : ∀ call,
            EvRequest call ∈ [EvRequest (endpoint_call client d path)] →
            ∃ d0 cs0 path0, Some d = Some d0
              ∧ endpoint.convert_args (map_args d0) args = Ok cs0
              ∧ Format.str_format env (path_template d0) cs0 = Ok path0
              ∧ call = endpoint_call client d0 path0).
  { intros call [= ->]%list_elem_of_singleton. by exists d, cs, path. }
  assert (Htwo : ∀ r call,
            EvRequest call ∈ [EvRequest (endpoint_call client d path);
                              EvFunc [PyClient client; PyResponse r]] →
            ∃ d0 cs0 path0, Some d = Some d0
              ∧ endpoint.convert_args (map_args d0) args = Ok cs0
              ∧ Format.str_format env (path_template d0) cs0 = Ok path0
              ∧ call = endpoint_call client d0 path0).
  { intros r call [[= ->]|Hin]%elem_of_cons; [by exists d, cs, path|].
    by apply list_elem_of_singleton in Hin. }
  destruct (session_send env _ _) as [r|e];
    [|eexists; split; [reflexivity | apply Hone]].
  destruct (bool_decide _); [eexists; split; [reflexivity | apply Hone]|].
  destruct (func d); [|eexists; split; [reflexivity | apply Hone]].
  eexists. split; [reflexivity|]. apply Htwo.
Qed.

(** When a positional converter raises after the converters before it
    returned, the call raises its exception before any request: the state
    is as before.  A [StopIteration] of the converter reaches the caller as
    [RuntimeError], because the converters run inside a generator. *)
Theorem converter_error_before_any_request
    env self client args kwargs σ d i f v e :
  heap σ !! self = Some d →
  map_args d !! i = Some f →
  args !! i = Some v →
  f v = Err e →
  (∀ j g w, (j < i)%nat → map_args d !! j = Some g → args !! j = Some w →
     is_Ok (g w)) →
  endpoint.execute env self client args kwargs σ
    = (Err (endpoint.raised_in_generator e), σ).
Proof.
  intros Hd Hf Hv Hfv Hbefore.
  rewrite (execute_run _ _ _ _ _ _ _ Hd).
  by rewrite (convert_args_error_at _ _ _ _ _ _ Hf Hv Hfv Hbefore).
Qed.

Lemma converter_error_before_any_request_witness :
  Scenario.exhausted (PyStr "7") = Err StopIteration
  ∧ endpoint.execute (Scenario.network (Ok Scenario.ok)) 0%nat Scenario.client
      [PyStr "7"] ∅
      (Scenario.store (Scenario.exhausting (Scenario.network (Ok Scenario.ok))))
    = (Err (RuntimeError "generator raised StopIteration"),
       Scenario.store (Scenario.exhausting (Scenario.network (Ok Scenario.ok)))).
Proof.
  split; [reflexivity|].
  apply (converter_error_before_any_request
           (Scenario.network (Ok Scenario.ok)) 0%nat Scenario.client
           [PyStr "7"] ∅
           (Scenario.store (Scenario.exhausting (Scenario.network (Ok Scenario.ok))))
           (Scenario.exhausting (Scenario.network (Ok Scenario.ok)))
           0%nat Scenario.exhausted (PyStr "7") StopIteration);
    try reflexivity.
  intros j g w Hj. lia.
Defined.

(** The same with a converter that raises another exception. *)
Example refusing_converter_raises_its_exception :
  endpoint.execute (Scenario.network (Ok Scenario.ok)) 0%nat Scenario.client
    [PyStr "7"] ∅
    (Scenario.store (Scenario.refusing (Scenario.network (Ok Scenario.ok))))
  = (Err (Raised 9),
     Scenario.store (Scenario.refusing (Scenario.network (Ok Scenario.ok)))).
Proof. reflexivity. Qed.

(** Whatever exception [client.request] raises, an HTTP status error or an
    exception of the network, [execute] raises the same exception, in the
    state the request left, and the wrapped method is not called. *)
Theorem request_error_skips_wrapped_method env self client args kwargs σ d
    path params passthrough options e σ' :
  heap σ !! self = Some d →
  endpoint._parse_args env d args kwargs = Ok (path, params, passthrough) →
  endpoint.with_params params passthrough = Ok options →
  RequestClient.request env client (method d) path [] options σ = (Err e, σ') →
  endpoint.execute env self client args kwargs σ = (Err e, σ')
  ∧ ∃ call, trace σ' = trace σ ++ [EvRequest call].
Proof.
  intros Hd Hparse Hopt Hreq.
  rewrite (execute_after_request _ _ _ _ _ _ _ _ _ _ _ Hd Hparse Hopt), Hreq.
  split; [reflexivity|].
  rewrite request_run in Hreq. injection Hreq as _ <-. by eexists.
Qed.

Lemma request_error_skips_wrapped_method_witness :
  endpoint.execute (Scenario.network (Ok Scenario.not_found)) 0%nat
    Scenario.client [PyStr "7"; PyStr "x"] ∅
    (Scenario.store (Scenario.items (Scenario.network (Ok Scenario.not_found))))
  = (Err (HTTPError Scenario.not_found),
     mk_State
       {[ 0%nat := Scenario.items (Scenario.network (Ok Scenario.not_found)) ]}
       [EvRequest
          (mk_SessionCall "GET" "https://api.example/base/items/7?x" []
             {[ "params"%string := PyDict ∅; "timeout"%string := PyInt 30 ]})])
  ∧ ∃ call,
      [EvRequest
         (mk_SessionCall "GET" "https://api.example/base/items/7?x" []
            {[ "params"%string := PyDict ∅; "timeout"%string := PyInt 30 ]})]
      = [] ++ [EvRequest call].
Proof.
  apply (request_error_skips_wrapped_method
           (Scenario.network (Ok Scenario.not_found)) 0%nat Scenario.client
           [PyStr "7"; PyStr "x"] ∅
           (Scenario.store (Scenario.items (Scenario.network (Ok Scenario.not_found))))
           (Scenario.items (Scenario.network (Ok Scenario.not_found)))
           "items/7?x" ∅ ∅ {[ "params"%string := PyDict ∅ ]}
           (HTTPError Scenario.not_found)); reflexivity.
Defined.

(** An endpoint that was never used as a decorator has no wrapped method:
    a run of [execute] on it sends the request first and raises
    [TypeError] afterwards, with the request sent. *)
Theorem undecorated_endpoint_requests_then_fails env self client args kwargs σ d
    path params passthrough options r σ' :
  heap σ !! self = Some d →
  func d = None →
  endpoint._parse_args env d args kwargs = Ok (path, params, passthrough) →
  endpoint.with_params params passthrough = Ok options →
  RequestClient.request env client (method d) path [] options σ = (Ok r, σ') →
  endpoint.execute env self client args kwargs σ
    = (Err (TypeError "'NoneType' object is not callable"), σ')
  ∧ ∃ call, trace σ' = trace σ ++ [EvRequest call].
Proof.
  intros Hd Hf Hparse Hopt Hreq.
  rewrite (execute_after_request _ _ _ _ _ _ _ _ _ _ _ Hd Hparse Hopt), Hreq, Hf.
  split; [reflexivity|].
  rewrite request_run in Hreq. injection Hreq as _ <-. by eexists.
Qed.

Lemma undecorated_endpoint_requests_then_fails_witness :
  endpoint.execute (Scenario.network (Ok Scenario.ok)) 0%nat
    Scenario.client [PyStr "7"; PyStr "x"] ∅
    (Scenario.store (Scenario.undecorated (Scenario.network (Ok Scenario.ok))))
  = (Err (TypeError "'NoneType' object is not callable"),
     mk_State
       {[ 0%nat := Scenario.undecorated (Scenario.network (Ok Scenario.ok)) ]}
       [EvRequest
          (mk_SessionCall "GET" "https://api.example/base/items/7?x" []
             {[ "params"%string := PyDict ∅; "timeout"%string := PyInt 30 ]})])
  ∧ ∃ call,
      [EvRequest
         (mk_SessionCall "GET" "https://api.example/base/items/7?x" []
            {[ "params"%string := PyDict ∅; "timeout"%string := PyInt 30 ]})]
      = [] ++ [EvRequest call].
Proof.
  apply (undecorated_endpoint_requests_then_fails
           (Scenario.network (Ok Scenario.ok)) 0%nat Scenario.client
           [PyStr "7"; PyStr "x"] ∅
           (Scenario.store (Scenario.undecorated (Scenario.network (Ok Scenario.ok))))
           (Scenario.undecorated (Scenario.network (Ok Scenario.ok)))
           "items/7?x" ∅ ∅ {[ "params"%string := PyDict ∅ ]}
           Scenario.ok); reflexivity.
Defined.

(** ** The decorated method *)

Lemma decorated_fails env self client args kwargs σ :
  (∃ e, endpoint.execute env self client args kwargs σ = (Err e, σ)) →
  ∃ e, endpoint.decorated env self client args kwargs σ = (Err e, σ).
Proof.
  intros Hexec.
  destruct (decorated_run env self client args kwargs σ) as [->| ->];
    [done | by eexists].
Qed.

Lemma execute_fails_when_format_fails env self client args kwargs σ d :
  heap σ !! self = Some d →
  (∀ cs, ∃ e, Format.str_format env (path_template d) cs = Err e) →
  ∃ e, endpoint.execute env self client args kwargs σ = (Err e, σ).
Proof.
  intros Hd Hfmt. rewrite (execute_run _ _ _ _ _ _ _ Hd).
  destruct (endpoint.convert_args _ _) as [cs|e]; cbn [mbind result_bind];
    [|by eexists].
  destruct (Hfmt cs) as [e ->]. by eexists.
Qed.

(** The keyword arguments of a call of the decorated method have no effect
    on it: the call does exactly what the call without keyword arguments
    does, and a request it sends carries no positional arguments and the
    keyword arguments [params={}] and [timeout=30] only.  (A keyword
    argument named [self] or [client] collides with a parameter.) *)
Theorem decorated_call_ignores_keyword_arguments
    env self client args kwargs σ :
  kwargs !! "self"%string = None →
  kwargs !! "client"%string = None →
  endpoint.decorated env self client args kwargs σ
    = endpoint.decorated env self client args ∅ σ
  ∧ ∀ call,
      EvRequest call ∈ trace (endpoint.decorated env self client args kwargs σ).2 →
      EvRequest call ∈ trace σ
      ∨ (sc_args call = []
         ∧ sc_kwargs call
           = {[ "params"%string := PyDict ∅; "timeout"%string := PyInt 30 ]}).
Proof.
  intros Hself Hclient.
  rewrite (decorated_forwards _ _ _ _ _ Hself Hclient).
  rewrite (decorated_forwards _ _ _ _ ∅) by apply lookup_empty.
  split.
  - destruct (heap σ !! self) as [d|] eqn:Hd.
    + by rewrite !(execute_run _ _ _ _ _ _ _ Hd).
    + unfold endpoint.execute. rewrite !M_bind_run. unfold read. by rewrite Hd.
  - intros call Hin.
    destruct (execute_events env self client args kwargs σ)
      as (evs & Hrun & Hevs).
    rewrite Hrun in Hin. cbn [snd trace] in Hin.
    apply elem_of_app in Hin as [Hin|Hin]; [by left|right].
    destruct (Hevs _ Hin) as (d & cs & path & _ & _ & _ & ->).
    split; reflexivity.
Qed.

Lemma decorated_call_ignores_keyword_arguments_witness :
  ({[ "q"%string := PyStr "x"; "timeout"%string := PyInt 5 ]}
     : gmap string PyVal) !! "self"%string = None
  ∧ ({[ "q"%string := PyStr "x"; "timeout"%string := PyInt 5 ]}
       : gmap string PyVal) !! "client"%string = None
  ∧ endpoint.decorated (Scenario.network (Ok Scenario.ok)) 0%nat Scenario.client
    [] {[ "q"%string := PyStr "x"; "timeout"%string := PyInt 5 ]}
    (Scenario.store (Scenario.search_q (Scenario.network (Ok Scenario.ok))))
  = endpoint.decorated (Scenario.network (Ok Scenario.ok)) 0%nat Scenario.client
      [] ∅
      (Scenario.store (Scenario.search_q (Scenario.network (Ok Scenario.ok)))).
Proof.
  split; [reflexivity|]. split; [reflexivity|].
  apply (decorated_call_ignores_keyword_arguments
           (Scenario.network (Ok Scenario.ok)) 0%nat Scenario.client []
           {[ "q"%string := PyStr "x"; "timeout"%string := PyInt 5 ]}
           (Scenario.store (Scenario.search_q (Scenario.network (Ok Scenario.ok)))));
    reflexivity.
Defined.

(** A call that gets through: the converters return [cs], the template
    gives [path], the network answers with a response whose status is no
    client or server error.  Then exactly one request goes out, with the
    verb of the endpoint, the joined URL, no positional arguments and the
    keyword arguments [params={}], [timeout=30]; the wrapped method is
    called once with the client and the response, and its result is the
    result of the call. *)
Theorem decorated_call_succeeds env self client args kwargs σ d f cs path r :
  heap σ !! self = Some d →
  func d = Some f →
  kwargs !! "self"%string = None →
  kwargs !! "client"%string = None →
  endpoint.convert_args (map_args d) args = Ok cs →
  Format.str_format env (path_template d) cs = Ok path →
  session_send env (trace σ)
    (mk_SessionCall (method d) (urljoin (server client) path) []
       {[ "params"%string := PyDict ∅; "timeout"%string := PyInt 30 ]}) = Ok r →
  ¬ (400 ≤ status_code r < 600) →
  endpoint.decorated env self client args kwargs σ
    = (f [PyClient client; PyResponse r],
       mk_State (heap σ)
         (trace σ ++
            [EvRequest
               (mk_SessionCall (method d) (urljoin (server client) path) []
                  {[ "params"%string := PyDict ∅; "timeout"%string := PyInt 30 ]});
             EvFunc [PyClient client; PyResponse r]])).
Proof.
  intros Hd Hf Hself Hclient Hcs Hpath Hsend Hstatus.
  rewrite (decorated_forwards _ _ _ _ _ Hself Hclient).
  rewrite (execute_run _ _ _ _ _ _ _ Hd), Hcs. cbn [mbind result_bind].
  rewrite Hpath. cbn zeta.
  change (endpoint_call client d path)
    with (mk_SessionCall (method d) (urljoin (server client) path) []
            (<["timeout"%string :=
                 default (PyInt 30)
                   (({[ "params"%string := PyDict ∅ ]} : gmap string PyVal)
                      !! "timeout"%string)]>
               {[ "params"%string := PyDict ∅ ]})).
  assert (Hkw : <["timeout"%string :=
                    default (PyInt 30)
                      (({[ "params"%string := PyDict ∅ ]} : gmap string PyVal)
                         !! "timeout"%string)]>
                  ({[ "params"%string := PyDict ∅ ]} : gmap string PyVal)
                = {[ "params"%string := PyDict ∅; "timeout"%string := PyInt 30 ]})
    by reflexivity.
  rewrite Hkw, Hsend, Hf. by rewrite bool_decide_eq_false_2.
Qed.

Lemma decorated_call_succeeds_witness :
  ¬ (400 ≤ status_code Scenario.ok < 600)
  ∧ endpoint.decorated (Scenario.network (Ok Scenario.ok)) 0%nat Scenario.client
      [PyStr "7"; PyInt 5] ∅
      (Scenario.store (Scenario.items (Scenario.network (Ok Scenario.ok))))
    = (Scenario.return_text [PyClient Scenario.client; PyResponse Scenario.ok],
       mk_State
         {[ 0%nat := Scenario.items (Scenario.network (Ok Scenario.ok)) ]}
         ([] ++
            [EvRequest
               (mk_SessionCall "GET"
                  (urljoin "https://api.example/base/" "items/7?5") []
                  {[ "params"%string := PyDict ∅; "timeout"%string := PyInt 30 ]});
             EvFunc [PyClient Scenario.client; PyResponse Scenario.ok]])).
Proof.
  assert (Hs : ¬ (400 ≤ status_code Scenario.ok < 600)) by (cbn; lia).
  split; [exact Hs|].
  apply (decorated_call_succeeds
           (Scenario.network (Ok Scenario.ok)) 0%nat Scenario.client
           [PyStr "7"; PyInt 5] ∅
           (Scenario.store (Scenario.items (Scenario.network (Ok Scenario.ok))))
           (Scenario.items (Scenario.network (Ok Scenario.ok)))
           Scenario.return_text [PyStr "7"; PyStr "5"] "items/7?5" Scenario.ok);
    try reflexivity.
  exact Hs.
Defined.

(** ** Templates that cannot be filled, and templates without slots *)

Section Templates.
Import Format Template.
Context (env : Externals).

(** Literal text without braces is copied to the output. *)
Lemma do_markup_literal expand (s : string) : ∀ cs an out,
  Str.contains_char "{"%char s = false →
  Str.contains_char "}"%char s = false →
  do_markup env expand (scan SLit s) cs an out = Ok (out +:+ s, an).
Proof.
  induction s as [|c s IH]; intros cs an out Hopen Hclose.
  - cbn. by rewrite append_empty_r.
  - cbn in Hopen, Hclose.
    apply orb_false_iff in Hopen as [Hc1 Hopen].
    apply orb_false_iff in Hclose as [Hc2 Hclose].
    cbn [scan step]. rewrite Hc1, Hc2. cbn [app do_markup].
    rewrite (IH cs an (snoc out c) Hopen Hclose). by rewrite snoc_append.
Qed.

(** A slot with a name cannot be looked up: [format] gets positional
    arguments only. *)
Lemma do_markup_named_slot expand ps f k :
  Fld f ∈ ps → field_arg f = KeyArg k →
  ∀ cs an out, ∃ e, do_markup env expand ps cs an out = Err e.
Proof.
  intros Hin Hkey. induction ps as [|p ps IH]; intros cs an out.
  - by apply elem_of_nil in Hin.
  - apply elem_of_cons in Hin as [<-|Hin].
    + cbn [do_markup]. unfold output_markup, get_field_object.
      rewrite Hkey. cbn. by eexists.
    + destruct p as [c|f'|e]; cbn [do_markup].
      * by apply IH.
      * destruct (output_markup env expand f' cs an) as [[s an']|e];
          cbn [mbind result_bind]; [by apply IH | by eexists].
      * by eexists.
Qed.

End Templates.

(** A path template without braces is the path, whatever the positional
    arguments are (the converters still run on them). *)
Theorem template_without_braces_is_the_path env d args kwargs cs :
  Str.contains_char "{"%char (path_template d) = false →
  Str.contains_char "}"%char (path_template d) = false →
  endpoint.convert_args (map_args d) args = Ok cs →
  endpoint._parse_args env d args kwargs = Ok (path_template d, ∅, ∅).
Proof.
  intros Hopen Hclose Hcs. rewrite parse_args_run, Hcs.
  cbn [mbind result_bind]. unfold Format.str_format.
  change (Format.build_string env 2 (path_template d) cs Format.auto_number_init)
    with (Format.do_markup env (Format.build_string env 1)
            (Format.scan Format.SLit (path_template d)) cs
            Format.auto_number_init EmptyString).
  by rewrite (do_markup_literal env _ _ _ _ _ Hopen Hclose).
Qed.

Lemma template_without_braces_is_the_path_witness :
  endpoint._parse_args (Scenario.network (Ok Scenario.ok))
    (Scenario.users (Scenario.network (Ok Scenario.ok)))
    [PyStr "7"; PyInt 5] ∅
  = Ok ("users"%string, ∅, ∅).
Proof.
  apply (template_without_braces_is_the_path
           (Scenario.network (Ok Scenario.ok))
           (Scenario.users (Scenario.network (Ok Scenario.ok)))
           [PyStr "7"; PyInt 5] ∅ []); reflexivity.
Defined.

(** A path template with a named slot, as in ['users/{id}'], makes every
    call of the decorated method fail before any request: the template is
    filled from the positional arguments only, so the name is never found.
    The state is as before the call. *)
Theorem named_slot_fails_every_call env self client args kwargs σ d f k :
  heap σ !! self = Some d →
  Format.Fld f ∈ Format.markup (path_template d) →
  Format.field_arg f = Format.KeyArg k →
  ∃ e, endpoint.decorated env self client args kwargs σ = (Err e, σ).
Proof.
  intros Hd Hin Hkey. apply decorated_fails.
  apply (execute_fails_when_format_fails _ _ _ _ _ _ _ Hd).
  intros cs. unfold Format.str_format.
  change (Format.build_string env 2 (path_template d) cs Format.auto_number_init)
    with (Format.do_markup env (Format.build_string env 1)
            (Format.markup (path_template d)) cs
            Format.auto_number_init EmptyString).
  destruct (do_markup_named_slot env (Format.build_string env 1) _ f k Hin Hkey
              cs Format.auto_number_init EmptyString) as [e ->].
  by exists e.
Qed.

Lemma named_slot_fails_every_call_witness :
  Format.Fld (Format.mk_Field "id" None "")
    ∈ Format.markup
        (path_template (Scenario.by_name (Scenario.network (Ok Scenario.ok))))
  ∧ ∃ e,
      endpoint.decorated (Scenario.network (Ok Scenario.ok)) 0%nat
        Scenario.client [PyStr "7"] ∅
        (Scenario.store (Scenario.by_name (Scenario.network (Ok Scenario.ok))))
      = (Err e,
         Scenario.store (Scenario.by_name (Scenario.network (Ok Scenario.ok)))).
Proof.
  assert (Hin : Format.Fld (Format.mk_Field "id" None "")
                  ∈ Format.markup
                      (path_template
                         (Scenario.by_name (Scenario.network (Ok Scenario.ok))))).
  { vm_compute. repeat constructor. }
  split; [exact Hin|].
  apply (named_slot_fails_every_call
           (Scenario.network (Ok Scenario.ok)) 0%nat Scenario.client
           [PyStr "7"] ∅
           (Scenario.store (Scenario.by_name (Scenario.network (Ok Scenario.ok))))
           (Scenario.by_name (Scenario.network (Ok Scenario.ok)))
           (Format.mk_Field "id" None "") "id" eq_refl Hin eq_refl).
Defined.

(** An endpoint whose template asks for more arguments than the endpoint
    has converters cannot be called: every call fails before any request,
    however many positional arguments it passes, because the arguments
    beyond the converters never reach the template. *)
Theorem too_few_converters_fail_every_call env self client args kwargs σ d :
  heap σ !! self = Some d →
  (length (map_args d) < Template.slots (Format.markup (path_template d)))%nat →
  ∃ e, endpoint.decorated env self client args kwargs σ = (Err e, σ).
Proof.
  intros Hd Hlt. apply decorated_fails.
  rewrite (execute_run _ _ _ _ _ _ _ Hd).
  destruct (endpoint.convert_args _ _) as [cs|e] eqn:Hcs;
    cbn [mbind result_bind]; [|by eexists].
  apply convert_args_length in Hcs.
  destruct (str_format_short env (path_template d) cs) as [e ->]; [lia|].
  by eexists.
Qed.

Lemma too_few_converters_fail_every_call_witness :
  (length (map_args (Scenario.one_converter (Scenario.network (Ok Scenario.ok))))
     < Template.slots
         (Format.markup
            (path_template
               (Scenario.one_converter (Scenario.network (Ok Scenario.ok))))))%nat
  ∧ ∃ e,
      endpoint.decorated (Scenario.network (Ok Scenario.ok)) 0%nat
        Scenario.client [PyStr "7"; PyStr "8"] ∅
        (Scenario.store
           (Scenario.one_converter (Scenario.network (Ok Scenario.ok))))
      = (Err e,
         Scenario.store
           (Scenario.one_converter (Scenario.network (Ok Scenario.ok)))).
Proof.
  assert (Hlt : (length (map_args (Scenario.one_converter
                                     (Scenario.network (Ok Scenario.ok))))
                   < Template.slots
                       (Format.markup
                          (path_template
                             (Scenario.one_converter
                                (Scenario.network (Ok Scenario.ok))))))%nat)
    by (vm_compute; lia).
  split; [exact Hlt|].
  apply (too_few_converters_fail_every_call
           (Scenario.network (Ok Scenario.ok)) 0%nat Scenario.client
           [PyStr "7"; PyStr "8"] ∅
           (Scenario.store
              (Scenario.one_converter (Scenario.network (Ok Scenario.ok))))
           (Scenario.one_converter (Scenario.network (Ok Scenario.ok)))
           eq_refl Hlt).
Defined.

(** A path template with a syntax error, for instance a single brace,
    makes every call of the decorated method fail before any request: a
    literal brace in a path has to be doubled. *)
Theorem malformed_template_fails_every_call env self client args kwargs σ d e :
  heap σ !! self = Some d →
  Format.Bad e ∈ Format.markup (path_template d) →
  ∃ e', endpoint.decorated env self client args kwargs σ = (Err e', σ).
Proof.
  intros Hd Hin. apply decorated_fails.
  apply (execute_fails_when_format_fails _ _ _ _ _ _ _ Hd).
  intros cs. unfold Format.str_format.
  change (Format.build_string env 2 (path_template d) cs Format.auto_number_init)
    with (Format.do_markup env (Format.build_string env 1)
            (Format.markup (path_template d)) cs
            Format.auto_number_init EmptyString).
  generalize Format.auto_number_init, EmptyString.
  induction (Format.markup (path_template d)) as [|p ps IH]; intros an out.
  - by apply elem_of_nil in Hin.
  - apply elem_of_cons in Hin as [<-|Hin]; [by eexists|].
    destruct p as [c|f|e0]; cbn [Format.do_markup].
    + by apply IH.
    + destruct (Format.output_markup _ _ _ _ _) as [[s an']|e0];
        cbn [mbind result_bind]; [by apply IH | by eexists].
    + by eexists.
Qed.

Lemma malformed_template_fails_every_call_witness :
  Format.Bad (ValueError "Single '}' encountered in format string")
    ∈ Format.markup "items/}"
  ∧ ∃ e',
      endpoint.decorated (Scenario.network (Ok Scenario.ok)) 0%nat
        Scenario.client [] ∅
        (Scenario.store (mk_Endpoint "GET" "items/}" [] ∅ (Some Scenario.return_text)))
      = (Err e',
         Scenario.store (mk_Endpoint "GET" "items/}" [] ∅ (Some Scenario.return_text))).
Proof.
  assert (Hin : Format.Bad (ValueError "Single '}' encountered in format string")
                  ∈ Format.markup "items/}")
    by (vm_compute; repeat constructor).
  split; [exact Hin|].
  apply (malformed_template_fails_every_call
           (Scenario.network (Ok Scenario.ok)) 0%nat Scenario.client [] ∅
           (Scenario.store (mk_Endpoint "GET" "items/}" [] ∅ (Some Scenario.return_text)))
           (mk_Endpoint "GET" "items/}" [] ∅ (Some Scenario.return_text))
           (ValueError "Single '}' encountered in format string") eq_refl Hin).
Defined.

(** ** Construction, decoration and call together *)


Lemma second_decoration_rebinds_the_first_witness :
  heap (Scenario.store (Scenario.items (Scenario.network (Ok Scenario.ok))))
    !! 0%nat
    = Some (Scenario.items (Scenario.network (Ok Scenario.ok)))
  ∧ ∃ first second σ',
      (endpoint.__call__ (Scenario.network (Ok Scenario.ok)) 0%nat
         Scenario.return_text
         ≫= λ first, endpoint.__call__ (Scenario.network (Ok Scenario.ok)) 0%nat
                       Scenario.return_none
         ≫= λ second, mret (first, second))
        (Scenario.store (Scenario.items (Scenario.network (Ok Scenario.ok))))
        = (Ok (first, second), σ')
      ∧ first = second
      ∧ func <$> heap σ' !! 0%nat = Some (Some Scenario.return_none).
Proof.
  split; [reflexivity|].
  apply (second_decoration_rebinds_the_first
           (Scenario.network (Ok Scenario.ok)) 0%nat
           Scenario.return_text Scenario.return_none
           (Scenario.store (Scenario.items (Scenario.network (Ok Scenario.ok))))
           (Scenario.items (Scenario.network (Ok Scenario.ok)))).
  reflexivity.
Defined.
